(** * Batch management front end: base-URL resolver and batch page

    A shallow embedding of [client/lib/api.ts] (the resolver
    [getApiBaseUrl]) and of the batch management page (the components
    [BatchDialog] and [BatchManagement]), with the properties of the
    specification stated over them.

    Conventions of the embedding.
    - A JavaScript string is a [string]: a sequence of code units, each
      [ascii] standing for the code unit of the same number (U+0000 to
      U+00FF).  [startsWith], [includes], concatenation and template
      literals act on code units, so they are the same functions on any
      alphabet; [trim] is written out for this range.
    - The text the page lower-cases (batch names, student names and
      admission numbers, the two search boxes) is a [JsText.t]: the full
      sequence of UTF-16 code units.  [String.prototype.toLowerCase]
      rests on the case tables of Unicode, which are no part of the
      page: the components take it as a parameter.
    - [undefined] for an optional value is [None].
    - An [async] function is a value of [Proc]: its synchronous effects
      in order, suspended at every awaited [fetch]; the event loop
      ([deliver], [settle]) resumes it with the outcome of the request. *)

From Stdlib Require Import Bool Arith Lia List ZArith Ascii String.
Import ListNotations.

Set Implicit Arguments.
Local Open Scope string_scope.
Local Open Scope bool_scope.
Local Open Scope nat_scope.

(** ** JavaScript string primitives *)

Module JsString.

(** [s.startsWith(p)] *)
Fixpoint startsWith (s p : string) {struct p} : bool :=
  match p with
  | EmptyString => true
  | String a p' =>
      match s with
      | EmptyString => false
      | String b s' => Ascii.eqb a b && startsWith s' p'
      end
  end.

(** [s.includes(p)]: [p] occurs at some position of [s]. *)
Fixpoint includes (s p : string) : bool :=
  startsWith s p ||
  match s with
  | EmptyString => false
  | String _ s' => includes s' p
  end.

(** Truthiness of a string: every string but the empty one. *)
Definition truthy (s : string) : bool :=
  match s with
  | EmptyString => false
  | String _ _ => true
  end.

Definition code (c : ascii) : nat := nat_of_ascii c.

(** White space and line terminators of the range: TAB, LF, VT, FF, CR,
    SPACE and NO-BREAK SPACE. *)
Definition isWhiteSpace (c : ascii) : bool :=
  let n := code c in
  ((9 <=? n) && (n <=? 13)) || (n =? 32) || (n =? 160).

Fixpoint trimStart (s : string) : string :=
  match s with
  | EmptyString => EmptyString
  | String c s' => if isWhiteSpace c then trimStart s' else s
  end.

Fixpoint trimEnd (s : string) : string :=
  match s with
  | EmptyString => EmptyString
  | String c s' =>
      match trimEnd s' with
      | EmptyString => if isWhiteSpace c then EmptyString else String c EmptyString
      | r => String c r
      end
  end.

(** [s.trim()] *)
Definition trim (s : string) : string := trimEnd (trimStart s).

End JsString.

(** ** Text in UTF-16 *)

Module JsText.

(** A string as the sequence of its UTF-16 code units. *)
Definition t : Type := list N.

(** The text of a string of the range U+0000 to U+00FF. *)
Definition ofString (s : string) : t :=
  map N_of_ascii (list_ascii_of_string s).

(** [s.startsWith(p)] *)
Fixpoint startsWith (s p : t) {struct p} : bool :=
  match p with
  | [] => true
  | a :: p' =>
      match s with
      | [] => false
      | b :: s' => N.eqb a b && startsWith s' p'
      end
  end.

(** [s.includes(p)]: [p] occurs at some position of [s]. *)
Fixpoint includes (s p : t) : bool :=
  startsWith s p ||
  match s with
  | [] => false
  | _ :: s' => includes s' p
  end.

End JsText.

(** ** A part of the case tables of Unicode *)

(** [String.prototype.toLowerCase] on text made of the code units U+0000
    to U+00FF and the three Greek sigmas, after the Unicode Character
    Database: the simple lower-case mappings, the properties Cased and
    Case_Ignorable, and the one context-sensitive rule of
    SpecialCasing.txt, Final_Sigma.  Other code units are left as they
    are and taken as neither cased nor case-ignorable, which is not what
    the tables say of all of them: the function serves to run the page on
    examples of this repertoire, and the page itself is parametric in
    [toLowerCase]. *)
Module CaseTables.

Local Open Scope N_scope.

Definition capitalSigma : N := 931.     (* U+03A3 *)
Definition smallFinalSigma : N := 962.  (* U+03C2 *)
Definition smallSigma : N := 963.       (* U+03C3 *)

Definition between (lo hi c : N) : bool := (lo <=? c) && (c <=? hi).

(** Upper-case letters with a simple mapping 32 further: A-Z, and
    U+00C0-U+00DE but the multiplication sign U+00D7. *)
Definition isUpperLatin (c : N) : bool :=
  between 65 90 c || (between 192 222 c && negb (c =? 215)).

(** Cased: A-Z, a-z, U+00AA, U+00B5, U+00BA, U+00C0-U+00D6,
    U+00D8-U+00F6, U+00F8-U+00FF, and the sigmas. *)
Definition isCased (c : N) : bool :=
  between 65 90 c || between 97 122 c ||
  (c =? 170) || (c =? 181) || (c =? 186) ||
  between 192 214 c || between 216 246 c || between 248 255 c ||
  (c =? capitalSigma) || (c =? smallFinalSigma) || (c =? smallSigma).

(** Case_Ignorable: U+0027, U+002E, U+003A, U+005E, U+0060, U+00A8,
    U+00AD, U+00AF, U+00B4, U+00B7, U+00B8. *)
Definition isCaseIgnorable (c : N) : bool :=
  existsb (N.eqb c) [39; 46; 58; 94; 96; 168; 173; 175; 180; 183; 184].

(** The text that follows is case-ignorable characters and then a cased
    letter. *)
Fixpoint followedByCased (rest : JsText.t) : bool :=
  match rest with
  | [] => false
  | c :: rest' => if isCaseIgnorable c then followedByCased rest' else isCased c
  end.

(** Lower-case [s], [precededByCased] telling whether what is before it
    is a cased letter and then case-ignorable characters.  A capital
    sigma becomes the final sigma when it is preceded by a cased letter
    and not followed by one (Final_Sigma), the small sigma otherwise. *)
Fixpoint lowerFrom (precededByCased : bool) (s : JsText.t) : JsText.t :=
  match s with
  | [] => []
  | c :: rest =>
      (if c =? capitalSigma
       then if precededByCased && negb (followedByCased rest)
            then smallFinalSigma else smallSigma
       else if isUpperLatin c then c + 32 else c)
      :: lowerFrom (if isCaseIgnorable c then precededByCased else isCased c) rest
  end.

Definition toLowerCase (s : JsText.t) : JsText.t := lowerFrom false s.

End CaseTables.

(** ** [client/lib/api.ts] *)

Module Api.
Import JsString.

(** [rawBaseUrl.match(/^192\.168\./)] yields a match exactly when the
    string starts with the eight characters [192.168.]; the result is
    used for its truthiness only. *)
Definition match_192_168 (s : string) : bool := startsWith s "192.168.".

(** [getApiBaseUrl], with the environment entry [VITE_API_BASE_URL] as
    its argument ([None] when the entry is not set). *)
Definition getApiBaseUrl (rawBaseUrl : option string) : string :=
  match rawBaseUrl with
  | None => "http://localhost:3001"
  | Some raw =>
      if negb (truthy raw) then "http://localhost:3001"
      else if startsWith raw "http://" || startsWith raw "https://" then raw
      else if includes raw "localhost" || match_192_168 raw
           then "http://" ++ raw ++ "/api"
           else "https://" ++ raw ++ "/api"
  end.

Definition API_BASE_URL (env : option string) : string := getApiBaseUrl env.

(** A configuration string that carries no scheme. *)
Definition schemeless (s : string) : Prop :=
  startsWith s "http://" = false /\ startsWith s "https://" = false.

(** The local hosts of case 3. *)
Definition isLocalHost (s : string) : bool :=
  includes s "localhost" || startsWith s "192.168.".

End Api.

(** ** Entities exchanged with the backend *)

Module Skill.
Record t : Type := mk {
  id : string;
  name : string;
  description : string;
  category : string
}.
End Skill.

Module Availability.
Record t : Type := mk {
  id : string;
  day_of_week : string;
  start_time : string;
  end_time : string
}.
End Availability.

Inductive FacultyType : Type := full_time | part_time.

Module Faculty.
Record t : Type := mk {
  id : string;
  name : string;
  type : FacultyType;
  skills : list Skill.t;
  isActive : bool;
  availability : list Availability.t
}.
End Faculty.

Module Student.
Record t : Type := mk {
  id : string;
  name : JsText.t;
  admission_number : JsText.t;
  phone_number : string
}.
End Student.

Module Batch.
Record t : Type := mk {
  id : string;
  name : JsText.t;
  faculty_id : string;
  student_ids : list string;
  start_date : string;
  end_date : string;
  start_time : string;
  end_time : string;
  days_of_week : list string;
  skill : Skill.t
}.
End Batch.

Inductive Status : Type := Upcoming | active | completed.

Definition BATCH_STATUSES : list Status := [Upcoming; active; completed].

Definition Status_text (s : Status) : string :=
  match s with
  | Upcoming => "Upcoming"
  | active => "active"
  | completed => "completed"
  end.

Module BatchFormData.
Record t : Type := mk {
  name : string;
  description : string;
  startDate : string;
  endDate : string;
  startTime : string;
  endTime : string;
  facultyId : string;
  skillId : string;
  maxStudents : Z;
  status : Status;
  studentIds : list string;
  daysOfWeek : list string
}.

(** The initial value of the form state, also restored when the dialog
    is shown without a batch. *)
Definition empty : t :=
  mk "" "" "" "" "" "" "" "" 30%Z Upcoming [] [].
End BatchFormData.

(** ** Requests and responses *)

(** The value handed to [JSON.stringify]; object members are kept in
    insertion order. *)
#[local] Unset Elimination Schemes.
Inductive json : Type :=
| JString (s : string)
| JNumber (n : Z)
| JArray (items : list json)
| JObject (members : list (string * json)).
#[local] Set Elimination Schemes.

Inductive Method : Type := GET | POST | PUT | DELETE.

Record Request : Type := mkRequest {
  method : Method;
  url : string;
  headers : list (string * string);
  body : option json
}.

Definition get (u : string) : Request := mkRequest GET u [] None.

Definition jsonHeaders : list (string * string) :=
  [("Content-Type", "application/json")].

(** What [response.json()] resolves to, at the type the caller uses it
    at, or the error it rejects with. *)
Inductive Parsed (A : Type) : Type :=
| Json (data : A)
| SyntaxError (message : string).
Arguments SyntaxError {A} message.

(** How an awaited [fetch] ends: it rejects (the request never
    completed), or resolves to a response with its [ok] flag (HTTP status
    in 200-299) and its body. *)
Inductive Outcome (A : Type) : Type :=
| NetworkError (message : string)
| Response (ok : bool) (json_ : Parsed A).
Arguments NetworkError {A} message.

(** The skills endpoint is the one whose body is inspected with
    [Array.isArray]. *)
Inductive SkillsJson : Type :=
| IsArray (items : list Skill.t)
| NotArray.

(** The type each call site reads the body at; [Unread] where only
    [response.ok] is looked at. *)
Inductive Shape : Type := AsBatches | AsFaculties | AsSkills | AsStudents | Unread.

Definition Payload (s : Shape) : Type :=
  match s with
  | AsBatches => list Batch.t
  | AsFaculties => list Faculty.t
  | AsSkills => SkillsJson
  | AsStudents => list Student.t
  | Unread => unit
  end.

(** ** Component state *)

(** State of [BatchManagement]. *)
Module Page.
Record t : Type := mk {
  batches : list Batch.t;
  faculties : list Faculty.t;
  skills : list Skill.t;
  searchTerm : JsText.t;
  isBatchDialogOpen : bool;
  isStudentListOpen : bool;
  selectedBatch : option Batch.t;
  studentsOfSelectedBatch : list Student.t;
  allStudents : list Student.t
}.

Definition initial : t := mk [] [] [] [] false false None [] [].

Definition setBatches (v : list Batch.t) (p : t) : t :=
  mk v (faculties p) (skills p) (searchTerm p) (isBatchDialogOpen p)
     (isStudentListOpen p) (selectedBatch p) (studentsOfSelectedBatch p)
     (allStudents p).
Definition setFaculties (v : list Faculty.t) (p : t) : t :=
  mk (batches p) v (skills p) (searchTerm p) (isBatchDialogOpen p)
     (isStudentListOpen p) (selectedBatch p) (studentsOfSelectedBatch p)
     (allStudents p).
Definition setSkills (v : list Skill.t) (p : t) : t :=
  mk (batches p) (faculties p) v (searchTerm p) (isBatchDialogOpen p)
     (isStudentListOpen p) (selectedBatch p) (studentsOfSelectedBatch p)
     (allStudents p).
Definition setSearchTerm (v : JsText.t) (p : t) : t :=
  mk (batches p) (faculties p) (skills p) v (isBatchDialogOpen p)
     (isStudentListOpen p) (selectedBatch p) (studentsOfSelectedBatch p)
     (allStudents p).
Definition setIsBatchDialogOpen (v : bool) (p : t) : t :=
  mk (batches p) (faculties p) (skills p) (searchTerm p) v
     (isStudentListOpen p) (selectedBatch p) (studentsOfSelectedBatch p)
     (allStudents p).
Definition setIsStudentListOpen (v : bool) (p : t) : t :=
  mk (batches p) (faculties p) (skills p) (searchTerm p) (isBatchDialogOpen p)
     v (selectedBatch p) (studentsOfSelectedBatch p) (allStudents p).
Definition setSelectedBatch (v : option Batch.t) (p : t) : t :=
  mk (batches p) (faculties p) (skills p) (searchTerm p) (isBatchDialogOpen p)
     (isStudentListOpen p) v (studentsOfSelectedBatch p) (allStudents p).
Definition setStudentsOfSelectedBatch (v : list Student.t) (p : t) : t :=
  mk (batches p) (faculties p) (skills p) (searchTerm p) (isBatchDialogOpen p)
     (isStudentListOpen p) (selectedBatch p) v (allStudents p).
Definition setAllStudents (v : list Student.t) (p : t) : t :=
  mk (batches p) (faculties p) (skills p) (searchTerm p) (isBatchDialogOpen p)
     (isStudentListOpen p) (selectedBatch p) (studentsOfSelectedBatch p) v.
End Page.

(** State of [BatchDialog]. *)
Module Dialog.
Record t : Type := mk {
  formData : BatchFormData.t;
  skills : list Skill.t;
  isLoading : bool;
  newStudentName : string;
  newStudentAdmissionNumber : string;
  newStudentPhoneNumber : string;
  studentSearch : JsText.t
}.

Definition initial : t := mk BatchFormData.empty [] false "" "" "" [].

Definition setFormData (v : BatchFormData.t) (d : t) : t :=
  mk v (skills d) (isLoading d) (newStudentName d)
     (newStudentAdmissionNumber d) (newStudentPhoneNumber d) (studentSearch d).
Definition setSkills (v : list Skill.t) (d : t) : t :=
  mk (formData d) v (isLoading d) (newStudentName d)
     (newStudentAdmissionNumber d) (newStudentPhoneNumber d) (studentSearch d).
Definition setIsLoading (v : bool) (d : t) : t :=
  mk (formData d) (skills d) v (newStudentName d)
     (newStudentAdmissionNumber d) (newStudentPhoneNumber d) (studentSearch d).
Definition setNewStudentName (v : string) (d : t) : t :=
  mk (formData d) (skills d) (isLoading d) v
     (newStudentAdmissionNumber d) (newStudentPhoneNumber d) (studentSearch d).
Definition setNewStudentAdmissionNumber (v : string) (d : t) : t :=
  mk (formData d) (skills d) (isLoading d) (newStudentName d)
     v (newStudentPhoneNumber d) (studentSearch d).
Definition setNewStudentPhoneNumber (v : string) (d : t) : t :=
  mk (formData d) (skills d) (isLoading d) (newStudentName d)
     (newStudentAdmissionNumber d) v (studentSearch d).
Definition setStudentSearch (v : JsText.t) (d : t) : t :=
  mk (formData d) (skills d) (isLoading d) (newStudentName d)
     (newStudentAdmissionNumber d) (newStudentPhoneNumber d) v.
End Dialog.

(** The state of the screen: the page and the dialog it renders. *)
Record UI : Type := mkUI {
  page : Page.t;
  dialog : Dialog.t
}.

Definition onPage (f : Page.t -> Page.t) (u : UI) : UI :=
  mkUI (f (page u)) (dialog u).

Definition onDialog (f : Dialog.t -> Dialog.t) (u : UI) : UI :=
  mkUI (page u) (f (dialog u)).

(** ** Asynchronous procedures and the event loop *)

(** The body of a handler: its effects in program order.  [AwaitFetch]
    is [await fetch(...)] together with the reading of the response that
    follows it; [Call] is a call whose result is not awaited, so the
    caller goes on as soon as the callee returns or suspends. *)
Inductive Proc : Type :=
| Done
| Update (f : UI -> UI) (k : Proc)
| ConsoleError (msg : string) (k : Proc)
| ToastError (title description : string) (k : Proc)
| Confirm (prompt : string) (k : bool -> Proc)
| AwaitFetch (s : Shape) (req : Request) (k : Outcome (Payload s) -> Proc)
| Call (callee : Proc) (k : Proc).

Notation "c ;; k" := (c k) (at level 61, right associativity, only parsing).

(** What an observer of the screen and of the network sees. *)
Inductive Event : Type :=
| EvRequest (req : Request)
| EvConsoleError (msg : string)
| EvToastError (title description : string)
| EvConfirm (prompt : string) (answer : bool).

(** The surroundings of the page: the user answering [confirm], and the
    backend answering the [n]-th request that completes. *)
Record Env : Type := mkEnv {
  confirm : string -> bool;
  net : nat -> forall s : Shape, Request -> Outcome (Payload s)
}.

(** A procedure suspended at an [await]. *)
Record Suspended : Type := mkSuspended {
  shape : Shape;
  request : Request;
  resume : Outcome (Payload shape) -> Proc
}.

Record Machine : Type := mkMachine {
  ui : UI;
  trace : list Event;
  pending : list Suspended;
  served : nat
}.

Definition idle (u : UI) : Machine := mkMachine u [] [] 0.

Definition emit (e : Event) (m : Machine) : Machine :=
  mkMachine (ui m) (trace m ++ [e])%list (pending m) (served m).

Definition suspend (t : Suspended) (m : Machine) : Machine :=
  mkMachine (ui m) (trace m) (pending m ++ [t])%list (served m).

(** Run a procedure until it returns or suspends. *)
Fixpoint exec (env : Env) (p : Proc) (m : Machine) : Machine :=
  match p with
  | Done => m
  | Update f k =>
      exec env k (mkMachine (f (ui m)) (trace m) (pending m) (served m))
  | ConsoleError msg k => exec env k (emit (EvConsoleError msg) m)
  | ToastError title description k =>
      exec env k (emit (EvToastError title description) m)
  | Confirm prompt k =>
      let answer := confirm env prompt in
      exec env (k answer) (emit (EvConfirm prompt answer) m)
  | AwaitFetch s req k =>
      suspend (mkSuspended s req k) (emit (EvRequest req) m)
  | Call callee k => exec env k (exec env callee m)
  end.

(** One turn of the event loop: the oldest outstanding request
    completes and the procedure waiting for it goes on. *)
Definition deliver (env : Env) (m : Machine) : Machine :=
  match pending m with
  | [] => m
  | t :: rest =>
      exec env
        (resume t (net env (served m) (shape t) (request t)))
        (mkMachine (ui m) (trace m) rest (S (served m)))
  end.

Fixpoint settle (env : Env) (turns : nat) (m : Machine) : Machine :=
  match turns with
  | O => m
  | S n => settle env n (deliver env m)
  end.

Definition quiescent (m : Machine) : bool :=
  match pending m with
  | [] => true
  | _ :: _ => false
  end.

(** Observations on a trace. *)
Definition isRequest (mth : Method) (e : Event) : bool :=
  match e with
  | EvRequest req =>
      match method req, mth with
      | GET, GET | POST, POST | PUT, PUT | DELETE, DELETE => true
      | _, _ => false
      end
  | _ => false
  end.

Definition requests (mth : Method) (tr : list Event) : list Request :=
  flat_map (fun e =>
    match e with
    | EvRequest req => if isRequest mth e then [req] else []
    | _ => []
    end) tr.

Definition isToast (e : Event) : bool :=
  match e with
  | EvToastError _ _ => true
  | _ => false
  end.

Definition isConsoleError (e : Event) : bool :=
  match e with
  | EvConsoleError _ => true
  | _ => false
  end.

(** ** The components *)

Module BatchDialogProps.
Record t : Type := mk {
  open : bool;
  onOpenChange : bool -> Proc;
  batch : option Batch.t;
  faculties : list Faculty.t;
  allStudents : list Student.t;
  onSave : BatchFormData.t -> Proc;
  onStudentAdded : Proc
}.
End BatchDialogProps.

Section Components.

Import JsString.

(** The constant exported by [client/lib/api.ts]. *)
Variable API_BASE_URL : string.

(** [String.prototype.toLowerCase], a function of the host. *)
Variable toLowerCase : JsText.t -> JsText.t.

(** [list.includes(x)] on a list of strings. *)
Definition includesItem (l : list string) (x : string) : bool :=
  existsb (String.eqb x) l.

(** *** [BatchDialog] *)

Definition studentJson (name admission_number phone_number : string) : json :=
  JObject [("name", JString name);
           ("admission_number", JString admission_number);
           ("phone_number", JString phone_number)].

Definition handleAddStudent (props : BatchDialogProps.t) (d : Dialog.t) : Proc :=
  if truthy (trim (Dialog.newStudentName d)) &&
     truthy (trim (Dialog.newStudentAdmissionNumber d))
  then
    AwaitFetch Unread
      (mkRequest POST (API_BASE_URL ++ "/api/students") jsonHeaders
         (Some (studentJson (Dialog.newStudentName d)
                            (Dialog.newStudentAdmissionNumber d)
                            (Dialog.newStudentPhoneNumber d))))
      (fun response =>
         match response with
         | Response true _ =>
             Call (BatchDialogProps.onStudentAdded props) ;;
             Update (onDialog (Dialog.setNewStudentName "")) ;;
             Update (onDialog (Dialog.setNewStudentAdmissionNumber "")) ;;
             Update (onDialog (Dialog.setNewStudentPhoneNumber "")) ;;
             Done
         | Response false _ =>
             ConsoleError "Failed to add student" ;; Done
         | NetworkError _ =>
             ConsoleError "Error adding student:" ;; Done
         end)
  else Done.

(** The [disabled] attribute of the Add button. *)
Definition addDisabled (d : Dialog.t) : bool :=
  negb (truthy (Dialog.newStudentName d)) ||
  negb (truthy (Dialog.newStudentAdmissionNumber d)).

(** A click on the Add button: a disabled button dispatches nothing. *)
Definition clickAdd (props : BatchDialogProps.t) (d : Dialog.t) : Proc :=
  if addDisabled d then Done else handleAddStudent props d.

Definition fetchSkillsData : Proc :=
  Update (onDialog (Dialog.setIsLoading true)) ;;
  AwaitFetch AsSkills (get (API_BASE_URL ++ "/api/skills"))
    (fun skillsRes =>
       match skillsRes with
       | Response _ (Json (IsArray skillsData)) =>
           Update (onDialog (Dialog.setSkills skillsData)) ;;
           Update (onDialog (Dialog.setIsLoading false)) ;; Done
       | Response _ (Json NotArray) =>
           Update (onDialog (Dialog.setSkills [])) ;;
           Update (onDialog (Dialog.setIsLoading false)) ;; Done
       | Response _ (SyntaxError _) | NetworkError _ =>
           ConsoleError "Error fetching skills:" ;;
           Update (onDialog (Dialog.setSkills [])) ;;
           Update (onDialog (Dialog.setIsLoading false)) ;; Done
       end).

(** The effect that runs when [open] changes. *)
Definition onOpenEffect (props : BatchDialogProps.t) : Proc :=
  if BatchDialogProps.open props then fetchSkillsData else Done.

(** [e.preventDefault()] has no effect on the state or on the network
    and is left out. *)
Definition handleSubmit (props : BatchDialogProps.t) (formData : BatchFormData.t)
  : Proc :=
  Call (BatchDialogProps.onSave props formData) ;;
  Call (BatchDialogProps.onOpenChange props false) ;;
  Done.

Definition toggle (l : list string) (x : string) : list string :=
  if includesItem l x
  then filter (fun y => negb (String.eqb y x)) l
  else (l ++ [x])%list.

Definition withStudentIds (v : list string) (f : BatchFormData.t)
  : BatchFormData.t :=
  BatchFormData.mk
    (BatchFormData.name f) (BatchFormData.description f)
    (BatchFormData.startDate f) (BatchFormData.endDate f)
    (BatchFormData.startTime f) (BatchFormData.endTime f)
    (BatchFormData.facultyId f) (BatchFormData.skillId f)
    (BatchFormData.maxStudents f) (BatchFormData.status f)
    v (BatchFormData.daysOfWeek f).

Definition withDaysOfWeek (v : list string) (f : BatchFormData.t)
  : BatchFormData.t :=
  BatchFormData.mk
    (BatchFormData.name f) (BatchFormData.description f)
    (BatchFormData.startDate f) (BatchFormData.endDate f)
    (BatchFormData.startTime f) (BatchFormData.endTime f)
    (BatchFormData.facultyId f) (BatchFormData.skillId f)
    (BatchFormData.maxStudents f) (BatchFormData.status f)
    (BatchFormData.studentIds f) v.

(** The object [{ ...formData, facultyId: value, skillId: "" }]. *)
Definition withFaculty (value : string) (f : BatchFormData.t)
  : BatchFormData.t :=
  BatchFormData.mk
    (BatchFormData.name f) (BatchFormData.description f)
    (BatchFormData.startDate f) (BatchFormData.endDate f)
    (BatchFormData.startTime f) (BatchFormData.endTime f)
    value ""
    (BatchFormData.maxStudents f) (BatchFormData.status f)
    (BatchFormData.studentIds f) (BatchFormData.daysOfWeek f).

(** The object [{ ...formData, skillId: value }]. *)
Definition withSkill (value : string) (f : BatchFormData.t)
  : BatchFormData.t :=
  BatchFormData.mk
    (BatchFormData.name f) (BatchFormData.description f)
    (BatchFormData.startDate f) (BatchFormData.endDate f)
    (BatchFormData.startTime f) (BatchFormData.endTime f)
    (BatchFormData.facultyId f) value
    (BatchFormData.maxStudents f) (BatchFormData.status f)
    (BatchFormData.studentIds f) (BatchFormData.daysOfWeek f).

Definition handleStudentToggle (studentId : string) : Proc :=
  Update (onDialog (fun d =>
    let prev := Dialog.formData d in
    Dialog.setFormData
      (withStudentIds (toggle (BatchFormData.studentIds prev) studentId) prev) d)) ;;
  Done.

Definition handleDayToggle (day : string) : Proc :=
  Update (onDialog (fun d =>
    let prev := Dialog.formData d in
    Dialog.setFormData
      (withDaysOfWeek (toggle (BatchFormData.daysOfWeek prev) day) prev) d)) ;;
  Done.

Definition selectedFaculty (props : BatchDialogProps.t) (d : Dialog.t)
  : option Faculty.t :=
  find (fun f => String.eqb (Faculty.id f)
                            (BatchFormData.facultyId (Dialog.formData d)))
       (BatchDialogProps.faculties props).

Definition availableSkills (props : BatchDialogProps.t) (d : Dialog.t)
  : list Skill.t :=
  match selectedFaculty props d with
  | Some f => Faculty.skills f
  | None => Dialog.skills d
  end.


(** The items of the faculty select. *)
Definition facultyOptions (props : BatchDialogProps.t) : list Faculty.t :=
  filter Faculty.isActive (BatchDialogProps.faculties props).

(** [onValueChange] of the faculty select, in the render of state [d]. *)
Definition onFacultyChange (d : Dialog.t) (value : string) : Proc :=
  Update (onDialog (Dialog.setFormData (withFaculty value (Dialog.formData d)))) ;;
  Done.

(** [onValueChange] of the skill select. *)
Definition onSkillChange (d : Dialog.t) (value : string) : Proc :=
  Update (onDialog (Dialog.setFormData (withSkill value (Dialog.formData d)))) ;;
  Done.

(** *** [BatchManagement] *)

Definition fetchBatches : Proc :=
  AwaitFetch AsBatches (get (API_BASE_URL ++ "/api/batches"))
    (fun response =>
       match response with
       | Response _ (Json data) => Update (onPage (Page.setBatches data)) ;; Done
       | Response _ (SyntaxError _) | NetworkError _ =>
           ConsoleError "Error fetching batches:" ;; Done
       end).

Definition fetchFaculties : Proc :=
  AwaitFetch AsFaculties (get (API_BASE_URL ++ "/api/faculty"))
    (fun response =>
       match response with
       | Response _ (Json data) => Update (onPage (Page.setFaculties data)) ;; Done
       | Response _ (SyntaxError _) | NetworkError _ =>
           ConsoleError "Error fetching faculties:" ;; Done
       end).

Definition fetchSkills : Proc :=
  AwaitFetch AsSkills (get (API_BASE_URL ++ "/api/skills"))
    (fun response =>
       match response with
       | Response _ (Json (IsArray data)) =>
           Update (onPage (Page.setSkills data)) ;; Done
       | Response _ (Json NotArray) =>
           Update (onPage (Page.setSkills [])) ;; Done
       | Response _ (SyntaxError _) | NetworkError _ =>
           ConsoleError "Error fetching skills:" ;;
           Update (onPage (Page.setSkills [])) ;; Done
       end).

Definition fetchAllStudents : Proc :=
  AwaitFetch AsStudents (get (API_BASE_URL ++ "/api/students"))
    (fun res =>
       match res with
       | Response true (Json data) =>
           Update (onPage (Page.setAllStudents data)) ;; Done
       | Response false _ =>
           ToastError "Error fetching students"
                      "Could not fetch the list of all students." ;; Done
       | Response true (SyntaxError message) | NetworkError message =>
           ToastError "Error fetching students"
                      ("An error occurred: " ++ message) ;; Done
       end).

(** The effect that runs once, when the page is mounted. *)
Definition onMount : Proc :=
  Call fetchBatches ;; Call fetchFaculties ;; Call fetchSkills ;;
  Call fetchAllStudents ;; Done.

Definition handleAddBatch : Proc :=
  Update (onPage (Page.setSelectedBatch None)) ;;
  Update (onPage (Page.setIsBatchDialogOpen true)) ;; Done.

Definition handleEditBatch (batch : Batch.t) : Proc :=
  Update (onPage (Page.setSelectedBatch (Some batch))) ;;
  Update (onPage (Page.setIsBatchDialogOpen true)) ;; Done.

Definition handleViewStudents (batch : Batch.t) : Proc :=
  Update (onPage (Page.setSelectedBatch (Some batch))) ;;
  AwaitFetch AsStudents
    (get (API_BASE_URL ++ "/api/batches/" ++ Batch.id batch ++ "/students"))
    (fun response =>
       match response with
       | Response _ (Json data) =>
           Update (onPage (Page.setStudentsOfSelectedBatch data)) ;;
           Update (onPage (Page.setIsStudentListOpen true)) ;; Done
       | Response _ (SyntaxError _) | NetworkError _ =>
           ConsoleError "Error fetching students:" ;; Done
       end).

(** The object [{ ...data }] that [handleSaveBatch] serialises. *)
Definition payload (data : BatchFormData.t) : json :=
  JObject [("name", JString (BatchFormData.name data));
           ("description", JString (BatchFormData.description data));
           ("startDate", JString (BatchFormData.startDate data));
           ("endDate", JString (BatchFormData.endDate data));
           ("startTime", JString (BatchFormData.startTime data));
           ("endTime", JString (BatchFormData.endTime data));
           ("facultyId", JString (BatchFormData.facultyId data));
           ("skillId", JString (BatchFormData.skillId data));
           ("maxStudents", JNumber (BatchFormData.maxStudents data));
           ("status", JString (Status_text (BatchFormData.status data)));
           ("studentIds", JArray (map JString (BatchFormData.studentIds data)));
           ("daysOfWeek", JArray (map JString (BatchFormData.daysOfWeek data)))].

Definition saveUrl (selectedBatch : option Batch.t) : string :=
  match selectedBatch with
  | Some b => API_BASE_URL ++ "/api/batches/" ++ Batch.id b
  | None => API_BASE_URL ++ "/api/batches"
  end.

Definition saveMethod (selectedBatch : option Batch.t) : Method :=
  match selectedBatch with
  | Some _ => PUT
  | None => POST
  end.

(** The request [fetch(url, { method, headers, body })] of
    [handleSaveBatch]. *)
Definition saveRequest (selectedBatch : option Batch.t)
  (data : BatchFormData.t) : Request :=
  mkRequest (saveMethod selectedBatch) (saveUrl selectedBatch) jsonHeaders
            (Some (payload data)).

(** [handleSaveBatch], in a render where the selected batch is
    [selectedBatch]. *)
Definition handleSaveBatch (selectedBatch : option Batch.t)
  (data : BatchFormData.t) : Proc :=
  AwaitFetch Unread (saveRequest selectedBatch data)
    (fun response =>
       match response with
       | Response true _ =>
           Call fetchBatches ;;
           Update (onPage (Page.setIsBatchDialogOpen false)) ;;
           Update (onPage (Page.setSelectedBatch None)) ;;
           Done
       | Response false _ =>
           ConsoleError "Failed to save batch" ;;
           ToastError "Error saving batch" "Could not save the batch." ;;
           Done
       | NetworkError message =>
           ConsoleError "Error saving batch:" ;;
           ToastError "Error saving batch" ("An error occurred: " ++ message) ;;
           Done
       end).

Definition handleDeleteBatch (id : string) : Proc :=
  Confirm "Are you sure you want to delete this batch?" (fun confirmed =>
    if confirmed then
      AwaitFetch Unread
        (mkRequest DELETE (API_BASE_URL ++ "/api/batches/" ++ id) [] None)
        (fun response =>
           match response with
           | Response true _ => Call fetchBatches ;; Done
           | Response false _ => ConsoleError "Failed to delete batch" ;; Done
           | NetworkError _ => ConsoleError "Error deleting batch:" ;; Done
           end)
    else Done).

Definition filteredBatches (batches : list Batch.t) (searchTerm : JsText.t)
  : list Batch.t :=
  filter (fun batch =>
            JsText.includes (toLowerCase (Batch.name batch))
                            (toLowerCase searchTerm))
         batches.

(** The props [BatchManagement] renders [BatchDialog] with. *)
Definition dialogProps (p : Page.t) : BatchDialogProps.t :=
  BatchDialogProps.mk
    (Page.isBatchDialogOpen p)
    (fun v => Update (onPage (Page.setIsBatchDialogOpen v)) ;; Done)
    (Page.selectedBatch p)
    (Page.faculties p)
    (Page.allStudents p)
    (handleSaveBatch (Page.selectedBatch p))
    fetchAllStudents.

(** *** User actions on a rendered screen *)

(** The form is submitted. *)
Definition submitForm (u : UI) : Proc :=
  handleSubmit (dialogProps (page u)) (Dialog.formData (dialog u)).

(** The Add button of the inline student row is clicked. *)
Definition addStudent (u : UI) : Proc :=
  clickAdd (dialogProps (page u)) (dialog u).

(** A faculty is picked in the faculty select. *)
Definition pickFaculty (u : UI) (value : string) : Proc :=
  onFacultyChange (dialog u) value.

(** The skills the skill select offers. *)
Definition skillOptions (u : UI) : list Skill.t :=
  availableSkills (dialogProps (page u)) (dialog u).

(** Run a user action to the end: the handler, then [turns] turns of
    the event loop. *)
Definition run (env : Env) (turns : nat) (p : Proc) (u : UI) : Machine :=
  settle env turns (exec env p (idle u)).

End Components.

(** ** The rest of the screen: what is rendered, and sessions *)

(** A row of the roster table of [StudentListDialog]. *)
Inductive RosterRow : Type :=
| StudentRow (name admission_number : JsText.t) (phone_number : string)
| NoStudentsRow.

(** What can happen on the screen: the page is mounted, a button, a
    select, a check box or a search box is used, the dialog's [open]
    changes, or ([Turn]) the oldest outstanding request completes.
    [SetFormData value] stands for every call [setFormData(value)] with a
    value computed outside the state: typing in a text, date, time or
    number field of the form, and the effect that fills the form from the
    batch (or with the defaults) when the dialog is shown. *)
Inductive Action : Type :=
| Mount
| ClickAddBatch
| ClickEdit (batch : Batch.t)
| ClickViewStudents (batch : Batch.t)
| ClickDelete (id : string)
| Search (term : JsText.t)
| OpenChanged
| Submit
| Cancel
| ClickAdd
| PickFaculty (value : string)
| PickSkill (value : string)
| ToggleStudent (studentId : string)
| ToggleDay (day : string)
| SearchStudents (term : JsText.t)
| TypeStudentName (value : string)
| TypeAdmissionNumber (value : string)
| TypePhoneNumber (value : string)
| SetFormData (value : BatchFormData.t)
| Turn.

Section Screen.

Variable API_BASE_URL : string.

(** The [checked] attribute of a student's check box. *)
Definition studentChecked (d : Dialog.t) (studentId : string) : bool :=
  includesItem (BatchFormData.studentIds (Dialog.formData d)) studentId.

(** The [checked] attribute of a weekday's check box. *)
Definition dayChecked (d : Dialog.t) (day : string) : bool :=
  includesItem (BatchFormData.daysOfWeek (Dialog.formData d)) day.

(** The title of [BatchDialog] and the label of its submit button. *)
Definition dialogTitle (props : BatchDialogProps.t) : string :=
  match BatchDialogProps.batch props with
  | Some _ => "Edit Batch"
  | None => "Create New Batch"
  end.

Definition submitLabel (props : BatchDialogProps.t) : string :=
  match BatchDialogProps.batch props with
  | Some _ => "Update Batch"
  | None => "Create Batch"
  end.

(** The body of the roster table: [students && students.length > 0]
    decides between one row per student and the placeholder row. *)
Definition rosterRows (students : list Student.t) : list RosterRow :=
  match students with
  | [] => [NoStudentsRow]
  | _ :: _ =>
      map (fun student =>
             StudentRow (Student.name student)
                        (Student.admission_number student)
                        (Student.phone_number student))
          students
  end.

(** The roster dialog as [BatchManagement] renders it: only with a
    selected batch, and shown when [isStudentListOpen]; its title names
    the selected batch. *)
Definition rosterShown (p : Page.t) : option (JsText.t * list RosterRow) :=
  match Page.selectedBatch p with
  | Some b =>
      if Page.isStudentListOpen p
      then Some ((JsText.ofString "Students in " ++ Batch.name b)%list,
                 rosterRows (Page.studentsOfSelectedBatch p))
      else None
  | None => None
  end.

(** The handler an action runs, in the render of state [u]. *)
Definition handler (u : UI) (a : Action) : Proc :=
  match a with
  | Mount => onMount API_BASE_URL
  | ClickAddBatch => handleAddBatch
  | ClickEdit batch => handleEditBatch batch
  | ClickViewStudents batch => handleViewStudents API_BASE_URL batch
  | ClickDelete id => handleDeleteBatch API_BASE_URL id
  | Search term => Update (onPage (Page.setSearchTerm term)) ;; Done
  | OpenChanged => onOpenEffect API_BASE_URL (dialogProps API_BASE_URL (page u))
  | Submit => submitForm API_BASE_URL u
  | Cancel =>
      BatchDialogProps.onOpenChange (dialogProps API_BASE_URL (page u)) false
  | ClickAdd => addStudent API_BASE_URL u
  | PickFaculty value => pickFaculty u value
  | PickSkill value => onSkillChange (dialog u) value
  | ToggleStudent studentId => handleStudentToggle studentId
  | ToggleDay day => handleDayToggle day
  | SearchStudents term => Update (onDialog (Dialog.setStudentSearch term)) ;; Done
  | TypeStudentName value =>
      Update (onDialog (Dialog.setNewStudentName value)) ;; Done
  | TypeAdmissionNumber value =>
      Update (onDialog (Dialog.setNewStudentAdmissionNumber value)) ;; Done
  | TypePhoneNumber value =>
      Update (onDialog (Dialog.setNewStudentPhoneNumber value)) ;; Done
  | SetFormData value => Update (onDialog (Dialog.setFormData value)) ;; Done
  | Turn => Done
  end.

Definition step (env : Env) (m : Machine) (a : Action) : Machine :=
  match a with
  | Turn => deliver env m
  | _ => exec env (handler (ui m) a) m
  end.

(** A session: the actions one after the other, from the screen [u]
    with nothing outstanding. *)
Definition session (env : Env) (u : UI) (actions : list Action) : Machine :=
  fold_left (step env) actions (idle u).

End Screen.

(** ** Vocabulary of the specification *)

Section Vocabulary.

Import JsString.

(** [s] begins with [p]; [p] occurs in [s]. *)
Definition beginsWith (s p : string) : Prop := exists rest, s = p ++ rest.

Definition contains (s p : string) : Prop :=
  exists before after, s = before ++ p ++ after.



(** A request failed in a way [try]/[catch] sees: [fetch] rejected, or
    the body could not be parsed. *)
Definition thrown {A : Type} (o : Outcome A) : bool :=
  match o with
  | NetworkError _ => true
  | Response _ (SyntaxError _) => true
  | Response _ (Json _) => false
  end.

(** A request failed for a caller that looks at [response.ok]: [fetch]
    rejected, or the status is not a success. *)
Definition failed {A : Type} (o : Outcome A) : bool :=
  match o with
  | NetworkError _ => true
  | Response ok _ => negb ok
  end.

(** Monitor of a trace: every DELETE request comes after a confirmation
    that was accepted ([confirmed] tells whether one was seen). *)
Fixpoint deleteGuarded (confirmed : bool) (tr : list Event) : bool :=
  match tr with
  | [] => true
  | EvConfirm _ answer :: rest => deleteGuarded (confirmed || answer) rest
  | EvRequest req :: rest =>
      match method req with
      | DELETE => confirmed && deleteGuarded confirmed rest
      | _ => deleteGuarded confirmed rest
      end
  | _ :: rest => deleteGuarded confirmed rest
  end.

(** A string of white space only (the empty one included). *)
Fixpoint isBlank (s : string) : bool :=
  match s with
  | EmptyString => true
  | String c s' => isWhiteSpace c && isBlank s'
  end.

End Vocabulary.

Section SessionVocabulary.

(** Every event a procedure can emit, whatever the answers it gets,
    satisfies [P]. *)
Inductive Emits (P : Event -> Prop) : Proc -> Prop :=
| Emits_Done : Emits P Done
| Emits_Update f k : Emits P k -> Emits P (Update f k)
| Emits_ConsoleError msg k :
    P (EvConsoleError msg) -> Emits P k -> Emits P (ConsoleError msg k)
| Emits_ToastError title description k :
    P (EvToastError title description) -> Emits P k ->
    Emits P (ToastError title description k)
| Emits_Confirm prompt k :
    (forall answer, P (EvConfirm prompt answer)) ->
    (forall answer, Emits P (k answer)) ->
    Emits P (Confirm prompt k)
| Emits_AwaitFetch s req k :
    P (EvRequest req) -> (forall o, Emits P (k o)) ->
    Emits P (AwaitFetch s req k)
| Emits_Call callee k : Emits P callee -> Emits P k -> Emits P (Call callee k).

(** What one event of the page looks like: a request goes to a path
    under [/api/] of the base URL, carries a JSON body and the JSON
    content type when it is a POST or a PUT and no body otherwise; a
    notification is one of the two the page has. *)
Definition wellFormed (base : string) (e : Event) : Prop :=
  match e with
  | EvRequest req =>
      beginsWith (url req) (base ++ "/api/") /\
      match method req with
      | POST | PUT => headers req = jsonHeaders /\ body req <> None
      | GET | DELETE => headers req = [] /\ body req = None
      end
  | EvToastError title _ =>
      title = "Error saving batch" \/ title = "Error fetching students"
  | EvConsoleError _ | EvConfirm _ _ => True
  end.

(** A request that only reads. *)
Definition readOnly (e : Event) : Prop :=
  match e with
  | EvRequest req => method req = GET
  | _ => True
  end.

(** Actions that change nothing on the backend. *)
Definition isReadAction (a : Action) : bool :=
  match a with
  | Submit | ClickAdd | ClickDelete _ => false
  | _ => true
  end.

(** What a fetch leaves in a slice: the body when it parsed, the old
    value otherwise. *)
Definition parsedOr {A : Type} (o : Outcome A) (old : A) : A :=
  match o with
  | Response _ (Json data) => data
  | _ => old
  end.

(** The same for a caller that also requires [response.ok]. *)
Definition okParsedOr {A : Type} (o : Outcome A) (old : A) : A :=
  match o with
  | Response true (Json data) => data
  | _ => old
  end.

(** The skills from a response: the array, or nothing. *)
Definition skillsOf (o : Outcome SkillsJson) : list Skill.t :=
  match o with
  | Response _ (Json (IsArray data)) => data
  | _ => []
  end.

(** What a failed fetch that only logs leaves in the trace. *)
Definition fetchLog {A : Type} (msg : string) (o : Outcome A) : list Event :=
  if thrown o then [EvConsoleError msg] else [].

(** The notification of the students fetch. *)
Definition studentsToast {A : Type} (o : Outcome A) : list Event :=
  match o with
  | Response true (Json _) => []
  | Response false _ =>
      [EvToastError "Error fetching students"
                    "Could not fetch the list of all students."]
  | Response true (SyntaxError message) | NetworkError message =>
      [EvToastError "Error fetching students" ("An error occurred: " ++ message)]
  end.

(** A machine all of whose past and future events satisfy [P]. *)
Definition Keeps (P : Event -> Prop) (m : Machine) : Prop :=
  Forall P (trace m) /\
  Forall (fun t => forall o, Emits P (resume t o)) (pending m).

(** The last character of a string. *)
Fixpoint lastChar (s : string) : option ascii :=
  match s with
  | EmptyString => None
  | String c EmptyString => Some c
  | String _ s' => lastChar s'
  end.

End SessionVocabulary.

(** ** Sample surroundings and screens *)

Definition emptyPayload (s : Shape) : Payload s :=
  match s with
  | AsBatches => []
  | AsFaculties => []
  | AsSkills => IsArray []
  | AsStudents => []
  | Unread => tt
  end.

(** The user accepts every confirmation and the backend answers every
    request with a success and an empty collection. *)
Definition obliging : Env :=
  mkEnv (fun _ => true) (fun _ s _ => Response true (Json (emptyPayload s))).

(** The user declines every confirmation. *)
Definition declining : Env :=
  mkEnv (fun _ => false) (fun _ s _ => Response true (Json (emptyPayload s))).

(** No request completes. *)
Definition offline : Env :=
  mkEnv (fun _ => true) (fun _ _ _ => NetworkError "Failed to fetch").

(** Every request is answered with an error status and a body that is
    not JSON. *)
Definition rejecting : Env :=
  mkEnv (fun _ => true)
        (fun _ _ _ => Response false (SyntaxError "Unexpected token")).

Definition sampleSkill : Skill.t := Skill.mk "Math-id" "Math" "" "core".

Definition sampleFaculty : Faculty.t :=
  Faculty.mk "F1" "Ada" full_time [sampleSkill] true [].

Definition sampleBatch : Batch.t :=
  Batch.mk "B7" (JsText.ofString "Algebra-1") "F1" [] "2024-01-10" "2024-06-10"
           "09:00" "10:00" ["Monday"; "Wednesday"] sampleSkill.

Definition sampleForm : BatchFormData.t :=
  BatchFormData.mk "Algebra-1" "" "2024-01-10" "2024-06-10" "09:00" "10:00"
                   "F1" "Math-id" 30%Z Upcoming [] ["Monday"; "Wednesday"].

(** The create dialog, open and filled in. *)
Definition creating : UI :=
  mkUI (Page.mk [] [sampleFaculty] [sampleSkill] [] true false None [] [])
       (Dialog.mk sampleForm [sampleSkill] false "" "" "" []).

(** The edit dialog, open on [sampleBatch]. *)
Definition editing : UI :=
  mkUI (Page.mk [sampleBatch] [sampleFaculty] [sampleSkill] [] true false
                (Some sampleBatch) [] [])
       (Dialog.mk sampleForm [sampleSkill] false "" "" "" []).

(** The create dialog with the inline student row filled in. *)
Definition addingStudent (name admission_number phone_number : string) : UI :=
  mkUI (page creating)
       (Dialog.mk sampleForm [sampleSkill] false
                  name admission_number phone_number []).

Definition scienceSkill : Skill.t := Skill.mk "Sci-id" "Science" "" "core".

Definition scienceFaculty : Faculty.t :=
  Faculty.mk "F3" "Grace" part_time [scienceSkill] true [].

(** The create dialog with two faculties to choose from, the general
    skill list not loaded. *)
Definition staffed : UI :=
  mkUI (Page.mk [] [sampleFaculty; scienceFaculty] [] [] true false None [] [])
       (Dialog.mk sampleForm [] false "" "" "" []).

(** Two faculty records with the same id: an inactive one that teaches
    science, listed first, and the active one that teaches mathematics. *)
Definition formerRecord : Faculty.t :=
  Faculty.mk "F2" "Bob" part_time [scienceSkill] false [].

Definition currentRecord : Faculty.t :=
  Faculty.mk "F2" "Bob" full_time [sampleSkill] true [].

Definition doubled : UI :=
  mkUI (Page.mk [] [formerRecord; currentRecord] [] [] true false None [] [])
       (Dialog.mk BatchFormData.empty [] false "" "" "" []).

(** A batch named with a capital alpha and a capital sigma, U+0041
    U+03A3, and the search term that is the capital sigma alone. *)
Definition sigmaName : JsText.t := [65; 931]%N.

Definition sigmaTerm : JsText.t := [931]%N.


(** * Properties *)

(** ** Strings *)

Section StringFacts.

Import JsString.

Lemma startsWith_spec (s p : string) :
  startsWith s p = true <-> beginsWith s p.
Proof.
  revert s; induction p as [|a p IH]; intros s; simpl.
  - split; [intros _; now exists s | reflexivity].
  - destruct s as [|b s].
    + split; [discriminate | intros [r Hr]; discriminate Hr].
    + rewrite andb_true_iff, Ascii.eqb_eq, IH. split.
      * intros [-> [r ->]]. now exists r.
      * intros [r Hr]. simpl in Hr. injection Hr as -> ->.
        split; [reflexivity | now exists r].
Qed.

Lemma startsWith_false_spec (s p : string) :
  startsWith s p = false <-> ~ beginsWith s p.
Proof.
  rewrite <- startsWith_spec. destruct (startsWith s p).
  - split; [discriminate | intros H; now elim H].
  - split; [intros _ H; discriminate H | reflexivity].
Qed.

Lemma includes_spec (s p : string) :
  includes s p = true <-> contains s p.
Proof.
  induction s as [|c s IH]; simpl.
  - rewrite orb_false_r, startsWith_spec. split.
    + intros [r Hr]. now exists "", r.
    + intros [[|x b] [a Ha]]; [now exists a | discriminate Ha].
  - rewrite orb_true_iff, startsWith_spec, IH. split.
    + intros [[r Hr] | [b [a Ha]]].
      * now exists "", r.
      * exists (String c b), a. simpl. now rewrite Ha.
    + intros [[|x b] [a Ha]].
      * left. now exists a.
      * right. simpl in Ha. injection Ha as _ Ha. now exists b, a.
Qed.

Lemma startsWith_app (p s : string) : startsWith (p ++ s) p = true.
Proof. apply startsWith_spec. now exists s. Qed.

Lemma includes_empty (s : string) : includes s "" = true.
Proof. destruct s; reflexivity. Qed.

Lemma truthy_spec (s : string) : truthy s = true <-> s <> "".
Proof. destruct s; simpl; split; congruence. Qed.

Lemma trim_blank_prefix (c : ascii) (s : string) :
  isWhiteSpace c = true -> trim (String c s) = trim s.
Proof. intros H. unfold trim. simpl. now rewrite H. Qed.

End StringFacts.

Example getApiBaseUrl_unset : Api.getApiBaseUrl None = "http://localhost:3001".
Proof. reflexivity. Qed.

Example getApiBaseUrl_lan :
  Api.getApiBaseUrl (Some "192.168.1.7:3001") = "http://192.168.1.7:3001/api".
Proof. reflexivity. Qed.

Example getApiBaseUrl_domain :
  Api.getApiBaseUrl (Some "api.school.org") = "https://api.school.org/api".
Proof. reflexivity. Qed.

Example trim_example : JsString.trim "  a b  " = "a b".
Proof. reflexivity. Qed.

Example toLowerCase_example :
  CaseTables.toLowerCase (JsText.ofString "Algebra-1") =
  JsText.ofString "algebra-1".
Proof. reflexivity. Qed.

Example toLowerCase_final_sigma_example :
  CaseTables.toLowerCase sigmaName = [97; 962]%N /\
  CaseTables.toLowerCase sigmaTerm = [963]%N.
Proof. split; reflexivity. Qed.

(** ** The base-URL resolver *)

Section Resolver.

Import JsString Api.

Lemma getApiBaseUrl_schemeless (s : string) :
  s <> "" ->
  startsWith s "http://" = false ->
  startsWith s "https://" = false ->
  getApiBaseUrl (Some s) =
    if isLocalHost s then "http://" ++ s ++ "/api" else "https://" ++ s ++ "/api".
Proof.
  intros Hs H1 H2. unfold getApiBaseUrl, isLocalHost, match_192_168.
  apply truthy_spec in Hs. now rewrite Hs, H1, H2.
Qed.

Lemma getApiBaseUrl_with_scheme (s : string) :
  startsWith s "http://" || startsWith s "https://" = true ->
  getApiBaseUrl (Some s) = s.
Proof.
  intros H. unfold getApiBaseUrl. rewrite H.
  destruct s; [discriminate H | reflexivity].
Qed.

Lemma getApiBaseUrl_has_scheme (raw : option string) :
  startsWith (getApiBaseUrl raw) "http://" ||
  startsWith (getApiBaseUrl raw) "https://" = true.
Proof.
  destruct raw as [s|]; [| reflexivity].
  unfold getApiBaseUrl.
  destruct (truthy s); [| reflexivity]. cbn [negb].
  destruct (startsWith s "http://" || startsWith s "https://") eqn:E;
    [exact E |].
  destruct (includes s "localhost" || match_192_168 s).
  - now rewrite (startsWith_app "http://").
  - rewrite (startsWith_app "https://"). apply orb_true_r.
Qed.

End Resolver.

(** The empty configuration is case 1, which comes before the cases on
    the scheme and on the host: it resolves to the development origin. *)
Example getApiBaseUrl_empty_example :
  Api.schemeless "" /\
  ~ contains "" "localhost" /\ ~ beginsWith "" "192.168." /\
  Api.getApiBaseUrl (Some "") = "http://localhost:3001" /\
  Api.getApiBaseUrl (Some "") <> "https://" ++ "" ++ "/api".
Proof.
  split; [split; reflexivity |].
  split; [rewrite <- includes_spec; discriminate |].
  split; [rewrite <- startsWith_spec; discriminate |].
  split; [reflexivity | discriminate].
Qed.

(** C3: for every configuration string that carries no scheme (a string
    that is given, so not the empty one, which with the unset
    configuration is case 1 and comes first), the resolver returns
    [http://<input>/api] when the string contains [localhost] or begins
    with [192.168.], and [https://<input>/api] otherwise. *)
Theorem C3_schemeless_resolution (s : string) :
  s <> "" ->
  ~ beginsWith s "http://" ->
  ~ beginsWith s "https://" ->
  ((contains s "localhost" \/ beginsWith s "192.168.") ->
     Api.getApiBaseUrl (Some s) = "http://" ++ s ++ "/api") /\
  (~ (contains s "localhost" \/ beginsWith s "192.168.") ->
     Api.getApiBaseUrl (Some s) = "https://" ++ s ++ "/api").
Proof.
  intros Hs H1 H2.
  apply startsWith_false_spec in H1, H2.
  rewrite (getApiBaseUrl_schemeless Hs H1 H2). unfold Api.isLocalHost.
  rewrite <- includes_spec, <- startsWith_spec, <- orb_true_iff.
  destruct (JsString.includes s "localhost" || JsString.startsWith s "192.168.");
    split; intros H; try reflexivity; [now elim H | discriminate H].
Qed.

Lemma C3_schemeless_resolution_witness :
  Api.getApiBaseUrl (Some "localhost:3001") = "http://localhost:3001/api" /\
  Api.getApiBaseUrl (Some "example.org") = "https://example.org/api".
Proof.
  split.
  - apply (C3_schemeless_resolution (s := "localhost:3001")).
    + discriminate.
    + apply startsWith_false_spec; reflexivity.
    + apply startsWith_false_spec; reflexivity.
    + left. apply includes_spec. reflexivity.
  - apply (C3_schemeless_resolution (s := "example.org")).
    + discriminate.
    + apply startsWith_false_spec; reflexivity.
    + apply startsWith_false_spec; reflexivity.
    + rewrite <- includes_spec, <- startsWith_spec.
      intros [H | H]; discriminate H.
Defined.

(** C9: a configuration string that begins with [http://] or [https://]
    is returned as it is, whatever else it contains. *)
Theorem C9_scheme_returned_unchanged (s : string) :
  beginsWith s "http://" \/ beginsWith s "https://" ->
  Api.getApiBaseUrl (Some s) = s.
Proof.
  intros H. apply getApiBaseUrl_with_scheme.
  apply orb_true_iff. now rewrite !startsWith_spec.
Qed.

Lemma C9_scheme_returned_unchanged_witness :
  Api.getApiBaseUrl (Some "http://localhost:3001") = "http://localhost:3001" /\
  Api.getApiBaseUrl (Some "https://192.168.0.4/v2") = "https://192.168.0.4/v2".
Proof.
  split.
  - apply C9_scheme_returned_unchanged. left.
    apply startsWith_spec. reflexivity.
  - apply C9_scheme_returned_unchanged. right.
    apply startsWith_spec. reflexivity.
Defined.

(** C10: whatever the configuration (unset, empty or any string), the
    result begins with [http://] or [https://], and resolving the result
    again returns it unchanged. *)
Theorem C10_resolver_idempotent (raw : option string) :
  (beginsWith (Api.getApiBaseUrl raw) "http://" \/
   beginsWith (Api.getApiBaseUrl raw) "https://") /\
  Api.getApiBaseUrl (Some (Api.getApiBaseUrl raw)) = Api.getApiBaseUrl raw.
Proof.
  pose proof (getApiBaseUrl_has_scheme raw) as H. split.
  - rewrite <- !startsWith_spec. now apply orb_true_iff.
  - now apply getApiBaseUrl_with_scheme.
Qed.

(** ** Filtering the batch table *)

Section Filtering.





Lemma filter_all {A : Type} (f : A -> bool) (l : list A) :
  (forall x, In x l -> f x = true) -> filter f l = l.
Proof.
  induction l as [|x l IH]; simpl; intros H; [reflexivity |].
  rewrite (H x (or_introl eq_refl)), IH; auto.
Qed.

End Filtering.

Example filteredBatches_example :
  let mkBatch n :=
    Batch.mk n (JsText.ofString n) "" [] "" "" "" "" [] (Skill.mk "" "" "" "") in
  filteredBatches CaseTables.toLowerCase
                  [mkBatch "Algebra-1"; mkBatch "Physics"; mkBatch "PRE-ALGEBRA"]
                  (JsText.ofString "aLg")
  = [mkBatch "Algebra-1"; mkBatch "PRE-ALGEBRA"].
Proof. reflexivity. Qed.




(** ** The event loop *)

Section EventLoop.

Lemma settle_quiescent (env : Env) (n : nat) (m : Machine) :
  pending m = [] -> settle env n m = m.
Proof.
  induction n as [|n IH]; intros H; simpl; [reflexivity |].
  unfold deliver. now rewrite H, IH.
Qed.

Lemma payload_injective (a b : BatchFormData.t) : payload a = payload b -> a = b.
Proof.
  destruct a as [n1 d1 sd1 ed1 st1 et1 f1 k1 mx1 s1 ids1 days1].
  destruct b as [n2 d2 sd2 ed2 st2 et2 f2 k2 mx2 s2 ids2 days2].
  unfold payload. simpl. intros H.
  injection H as -> -> -> -> -> -> -> -> -> Hs Hids Hdays.
  assert (JString_inj : forall l l', map JString l = map JString l' -> l = l').
  { induction l as [|x l IH]; intros [|y l'] E; simpl in E;
      try discriminate E; [reflexivity |].
    injection E as -> E. now rewrite (IH _ E). }
  apply JString_inj in Hids, Hdays. subst.
  destruct s1, s2; try discriminate Hs; reflexivity.
Qed.

End EventLoop.

(** ** Running the handlers *)

#[local] Arguments emit _ _ /.
#[local] Arguments suspend _ _ /.
#[local] Arguments deliver _ _ /.
#[local] Arguments idle _ /.
#[local] Arguments run _ _ _ _ /.
#[local] Arguments onPage _ _ /.
#[local] Arguments onDialog _ _ /.

(** The loop has nothing left to do: drop the remaining turns. *)
Ltac quiesce := rewrite ?settle_quiescent by reflexivity; cbn.

(** Case analysis on the answer of the backend to the next request. *)
Ltac answer :=
  match goal with
  | |- context [net ?e ?n ?s ?r] =>
      let o := fresh "o" in
      remember (net e n s r) as o;
      destruct o as [?|[|] [?|?]]; cbn; quiesce
  end.

Section Saving.

Variables (base : string) (env : Env) (u : UI).

Let formData := Dialog.formData (dialog u).
Let selected := Page.selectedBatch (page u).

Lemma submit_requests (turns : nat) :
  let m := run env turns (submitForm base u) u in
  requests (saveMethod selected) (trace m) = [saveRequest base selected formData] /\
  (forall mth, mth <> saveMethod selected -> mth <> GET ->
               requests mth (trace m) = []).
Proof.
  subst formData selected. cbn.
  destruct turns as [|[|n]]; cbn;
    destruct (Page.selectedBatch (page u)) as [b|]; cbn; repeat answer;
    (split; [reflexivity | intros [] H1 H2; try reflexivity; congruence]).
Qed.

Lemma submit_failure (turns : nat) :
  let m := run env (S turns) (submitForm base u) u in
  failed (net env 0 Unread (saveRequest base selected formData)) = true ->
  existsb isToast (trace m) = true /\
  existsb isConsoleError (trace m) = true /\
  requests GET (trace m) = [] /\
  Page.isBatchDialogOpen (page (ui m)) = false /\
  Page.selectedBatch (page (ui m)) = selected /\
  pending m = [].
Proof.
  subst formData selected. cbn. answer; intros H; try discriminate H;
    destruct (Page.selectedBatch (page u)); cbn; repeat split.
Qed.

Lemma submit_success (turns : nat) :
  let m := run env (S (S turns)) (submitForm base u) u in
  failed (net env 0 Unread (saveRequest base selected formData)) = false ->
  requests GET (trace m) = [get (base ++ "/api/batches")] /\
  existsb isToast (trace m) = false /\
  Page.isBatchDialogOpen (page (ui m)) = false /\
  Page.selectedBatch (page (ui m)) = None /\
  pending m = [] /\
  firstn 2 (trace m) =
    [EvRequest (saveRequest base selected formData);
     EvRequest (get (base ++ "/api/batches"))] /\
  (forall ok data,
      net env 1 AsBatches (get (base ++ "/api/batches")) = Response ok (Json data) ->
      Page.batches (page (ui m)) = data).
Proof.
  subst formData selected. cbn. answer; intros H; try discriminate H;
    destruct (Page.selectedBatch (page u)); cbn; answer; repeat split;
    intros ok' data' E; try discriminate E; now injection E as _ ->.
Qed.

End Saving.

Example submit_rejected_example :
  let m := run rejecting 1 (submitForm "http://localhost:3001" creating) creating in
  Page.isBatchDialogOpen (page creating) = true /\
  trace m =
    [EvRequest (saveRequest "http://localhost:3001" None sampleForm);
     EvConsoleError "Failed to save batch";
     EvToastError "Error saving batch" "Could not save the batch."] /\
  Page.isBatchDialogOpen (page (ui m)) = false.
Proof. repeat split. Qed.

(** C1, as the code has it: when the save request fails (the request
    does not complete, or the status is not a success) the error
    notification is shown, but the dialog does not stay open:
    [handleSubmit] closes it as soon as the request has been sent. *)
Theorem C1_failed_save_closes_dialog
  (base : string) (env : Env) (u : UI) (turns : nat) :
  let m := run env (S turns) (submitForm base u) u in
  failed (net env 0 Unread
            (saveRequest base (Page.selectedBatch (page u))
                         (Dialog.formData (dialog u)))) = true ->
  existsb isToast (trace m) = true /\
  Page.isBatchDialogOpen (page (ui m)) = false.
Proof.
  intros m H. destruct (submit_failure base env u turns H) as (Ht & _ & _ & Hd & _).
  now split.
Qed.

Lemma C1_failed_save_closes_dialog_witness :
  let m := run rejecting 1 (submitForm "http://localhost:3001" creating) creating in
  Page.isBatchDialogOpen (page creating) = true /\
  existsb isToast (trace m) = true /\
  Page.isBatchDialogOpen (page (ui m)) = false.
Proof.
  split; [reflexivity |].
  apply (C1_failed_save_closes_dialog "http://localhost:3001" rejecting creating 0).
  reflexivity.
Defined.

(** C5: when the form is submitted with no batch selected, exactly one
    POST goes to [/api/batches], its body being the form's current
    values (and no PUT); with a batch selected, exactly one PUT goes to
    [/api/batches/<id of that batch>] (and no POST); and when the save
    succeeds the dialog is closed and the batch list is fetched again,
    the list received replacing the one shown. *)
Theorem C5_submit_issues_one_save_request
  (base : string) (env : Env) (u : UI) (turns : nat) :
  let formData := Dialog.formData (dialog u) in
  let m := run env turns (submitForm base u) u in
  (Page.selectedBatch (page u) = None ->
     requests POST (trace m) =
       [mkRequest POST (base ++ "/api/batches") jsonHeaders
                  (Some (payload formData))] /\
     requests PUT (trace m) = []) /\
  (forall b, Page.selectedBatch (page u) = Some b ->
     requests PUT (trace m) =
       [mkRequest PUT (base ++ "/api/batches/" ++ Batch.id b) jsonHeaders
                  (Some (payload formData))] /\
     requests POST (trace m) = []) /\
  (forall data, payload data = payload formData -> data = formData) /\
  (failed (net env 0 Unread
             (saveRequest base (Page.selectedBatch (page u)) formData)) = false ->
   2 <= turns ->
     Page.isBatchDialogOpen (page (ui m)) = false /\
     firstn 2 (trace m) =
       [EvRequest (saveRequest base (Page.selectedBatch (page u)) formData);
        EvRequest (get (base ++ "/api/batches"))] /\
     requests GET (trace m) = [get (base ++ "/api/batches")] /\
     (forall ok data,
        net env 1 AsBatches (get (base ++ "/api/batches")) = Response ok (Json data) ->
        Page.batches (page (ui m)) = data)).
Proof.
  intros formData m.
  destruct (submit_requests base env u turns) as [Hone Hnone].
  fold m in Hone, Hnone. split; [| split; [| split]].
  - intros E. rewrite E in Hone, Hnone. split; [exact Hone |].
    apply Hnone; discriminate.
  - intros b E. rewrite E in Hone, Hnone. split; [exact Hone |].
    apply Hnone; discriminate.
  - intros data. apply payload_injective.
  - intros Hok Hturns. destruct turns as [|[|n]]; try lia.
    destruct (submit_success base env u n Hok) as (Hg & _ & Hd & _ & _ & Hf & Hb).
    repeat split; assumption.
Qed.

Lemma C5_submit_issues_one_save_request_witness :
  let base := "http://localhost:3001" in
  let created := run obliging 2 (submitForm base creating) creating in
  let edited := run obliging 2 (submitForm base editing) editing in
  requests POST (trace created) =
    [mkRequest POST "http://localhost:3001/api/batches" jsonHeaders
               (Some (payload sampleForm))] /\
  requests PUT (trace edited) =
    [mkRequest PUT "http://localhost:3001/api/batches/B7" jsonHeaders
               (Some (payload sampleForm))] /\
  Page.isBatchDialogOpen (page (ui created)) = false /\
  requests GET (trace created) = [get "http://localhost:3001/api/batches"].
Proof.
  intros base created edited.
  destruct (C5_submit_issues_one_save_request base obliging creating 2)
    as (Hc & _ & _ & Hs).
  destruct (C5_submit_issues_one_save_request base obliging editing 2)
    as (_ & He & _ & _).
  destruct (Hc eq_refl) as [Hpost _].
  destruct (He sampleBatch eq_refl) as [Hput _].
  destruct (Hs eq_refl (le_n 2)) as (Hd & _ & Hg & _).
  repeat split; assumption.
Defined.

(** ** Deleting a batch *)

Section Deleting.

Lemma deleteGuarded_sound (tr : list Event) :
  forall confirmed, deleteGuarded confirmed tr = true ->
  forall before req after,
    tr = (before ++ EvRequest req :: after)%list -> method req = DELETE ->
    confirmed = true \/ exists prompt, In (EvConfirm prompt true) before.
Proof.
  induction tr as [|e tr IH]; intros c H before req after E Hm.
  - destruct before; discriminate E.
  - destruct before as [|e' before]; simpl in E; injection E as -> E.
    + simpl in H. rewrite Hm in H. apply andb_true_iff in H. now left.
    + assert (Hstep : exists c', deleteGuarded c' tr = true /\
                (c' = true -> c = true \/ exists p, e' = EvConfirm p true)).
      { destruct e' as [r|msg|t d|p a]; simpl in H.
        - exists c. split; [| now left].
          destruct (method r); try exact H.
          apply andb_true_iff in H. apply H.
        - exists c. split; [exact H | now left].
        - exists c. split; [exact H | now left].
        - exists (c || a). split; [exact H |].
          intros Hc. apply orb_true_iff in Hc as [-> | ->];
            [now left | right; now exists p]. }
      destruct Hstep as (c' & Hg & Hc').
      destruct (IH c' Hg before req after E Hm) as [Hc | [p Hp]].
      * destruct (Hc' Hc) as [-> | [p ->]]; [now left |].
        right. exists p. now left.
      * right. exists p. now right.
Qed.

Variables (base : string) (env : Env) (u : UI) (id : string).

Let prompt := "Are you sure you want to delete this batch?".
Let deleteRequest := mkRequest DELETE (base ++ "/api/batches/" ++ id) [] None.

Lemma delete_declined (turns : nat) :
  let m := run env turns (handleDeleteBatch base id) u in
  confirm env prompt = false ->
  trace m = [EvConfirm prompt false] /\ ui m = u /\ pending m = [].
Proof.
  subst prompt. cbn. intros ->. cbn. quiesce. now destruct u.
Qed.

Lemma delete_confirmed (turns : nat) :
  let m := run env turns (handleDeleteBatch base id) u in
  confirm env prompt = true ->
  requests DELETE (trace m) = [deleteRequest] /\
  firstn 2 (trace m) = [EvConfirm prompt true; EvRequest deleteRequest].
Proof.
  subst prompt deleteRequest. cbn. intros ->. cbn.
  destruct turns as [|[|n]]; cbn; repeat answer; now split.
Qed.

Lemma delete_guarded (turns : nat) :
  deleteGuarded false (trace (run env turns (handleDeleteBatch base id) u)) = true.
Proof.
  cbn. destruct (confirm env _); cbn; quiesce; [| reflexivity].
  destruct turns as [|[|n]]; cbn; repeat answer; reflexivity.
Qed.

Lemma delete_failure (turns : nat) :
  let m := run env (S turns) (handleDeleteBatch base id) u in
  confirm env prompt = true ->
  failed (net env 0 Unread deleteRequest) = true ->
  ui m = u /\ pending m = [] /\
  exists msg,
    trace m = [EvConfirm prompt true; EvRequest deleteRequest; EvConsoleError msg].
Proof.
  subst prompt deleteRequest. cbn. intros ->. cbn.
  answer; intros H; try discriminate H;
    (split; [now destruct u | split; [reflexivity | eexists; reflexivity]]).
Qed.

End Deleting.

(** ** Loading the collections *)

Section Loading.

Variables (base : string) (env : Env) (u : UI).

Lemma fetchBatches_thrown (turns : nat) :
  let req := get (base ++ "/api/batches") in
  let m := run env (S turns) (fetchBatches base) u in
  thrown (net env 0 AsBatches req) = true ->
  ui m = u /\ pending m = [] /\
  trace m = [EvRequest req; EvConsoleError "Error fetching batches:"].
Proof.
  cbn. answer; intros H; try discriminate H; repeat split; now destruct u.
Qed.

Lemma fetchFaculties_thrown (turns : nat) :
  let req := get (base ++ "/api/faculty") in
  let m := run env (S turns) (fetchFaculties base) u in
  thrown (net env 0 AsFaculties req) = true ->
  ui m = u /\ pending m = [] /\
  trace m = [EvRequest req; EvConsoleError "Error fetching faculties:"].
Proof.
  cbn. answer; intros H; try discriminate H; repeat split; now destruct u.
Qed.

Lemma fetchSkills_thrown (turns : nat) :
  let req := get (base ++ "/api/skills") in
  let m := run env (S turns) (fetchSkills base) u in
  thrown (net env 0 AsSkills req) = true ->
  ui m = onPage (Page.setSkills []) u /\ pending m = [] /\
  trace m = [EvRequest req; EvConsoleError "Error fetching skills:"].
Proof.
  cbn. answer; intros H; try discriminate H; repeat split.
Qed.

End Loading.

(** ** Adding a student inline *)

Section AddingStudent.

Import JsString.

Lemma trimEnd_nonblank_head (c : ascii) (s : string) :
  isWhiteSpace c = false -> truthy (trimEnd (String c s)) = true.
Proof. intros H. simpl. rewrite H. now destruct (trimEnd s). Qed.

Lemma truthy_trim (s : string) : truthy (trim s) = negb (isBlank s).
Proof.
  unfold trim. induction s as [|c s IH]; [reflexivity |].
  cbn [trimStart isBlank]. destruct (isWhiteSpace c) eqn:E.
  - exact IH.
  - now rewrite trimEnd_nonblank_head.
Qed.

Lemma isBlank_spec (s : string) :
  isBlank s = false <->
  exists before c after, s = before ++ String c after /\ isWhiteSpace c = false.
Proof.
  induction s as [|c s IH]; simpl.
  - split; [discriminate | intros ([|x b] & d & a & E & _); discriminate E].
  - rewrite andb_false_iff, IH. split.
    + intros [H | (b & d & a & -> & H)].
      * now exists "", c, s.
      * now exists (String c b), d, a.
    + intros ([|x b] & d & a & E & H); simpl in E; injection E as -> ->.
      * now left.
      * right. now exists b, d, a.
Qed.

Variables (base : string) (env : Env) (u : UI).

Let name := Dialog.newStudentName (dialog u).
Let admission_number := Dialog.newStudentAdmissionNumber (dialog u).
Let phone_number := Dialog.newStudentPhoneNumber (dialog u).
Let studentRequest :=
  mkRequest POST (base ++ "/api/students") jsonHeaders
            (Some (studentJson name admission_number phone_number)).

(** The button's [disabled] attribute adds nothing to the guard of the
    handler. *)
Lemma clickAdd_handleAddStudent (props : BatchDialogProps.t) (d : Dialog.t) :
  clickAdd base props d = handleAddStudent base props d.
Proof.
  unfold clickAdd, addDisabled, handleAddStudent.
  destruct (Dialog.newStudentName d); [reflexivity |].
  destruct (Dialog.newStudentAdmissionNumber d); [| reflexivity].
  cbn. now rewrite andb_false_r.
Qed.

Lemma addStudent_blank (turns : nat) :
  let m := run env turns (addStudent base u) u in
  isBlank name = true \/ isBlank admission_number = true ->
  trace m = [] /\ ui m = u /\ pending m = [].
Proof.
  subst name admission_number. unfold addStudent.
  rewrite clickAdd_handleAddStudent. unfold handleAddStudent.
  rewrite !truthy_trim. intros H.
  replace (negb _ && negb _) with false
    by (destruct H as [-> | ->]; cbn; now rewrite ?andb_false_r).
  cbn. quiesce. now destruct u.
Qed.

Lemma addStudent_posts (turns : nat) :
  let m := run env turns (addStudent base u) u in
  isBlank name = false -> isBlank admission_number = false ->
  requests POST (trace m) = [studentRequest].
Proof.
  subst name admission_number phone_number studentRequest. unfold addStudent.
  rewrite clickAdd_handleAddStudent. unfold handleAddStudent.
  rewrite !truthy_trim. intros -> ->. cbn.
  destruct turns as [|[|n]]; cbn; repeat answer; reflexivity.
Qed.

Lemma addStudent_success (turns : nat) :
  let m := run env (S (S turns)) (addStudent base u) u in
  isBlank name = false -> isBlank admission_number = false ->
  failed (net env 0 Unread studentRequest) = false ->
  firstn 2 (trace m) =
    [EvRequest studentRequest; EvRequest (get (base ++ "/api/students"))] /\
  requests GET (trace m) = [get (base ++ "/api/students")] /\
  Dialog.newStudentName (dialog (ui m)) = "" /\
  Dialog.newStudentAdmissionNumber (dialog (ui m)) = "" /\
  Dialog.newStudentPhoneNumber (dialog (ui m)) = "" /\
  pending m = [] /\
  (forall data,
      net env 1 AsStudents (get (base ++ "/api/students")) = Response true (Json data) ->
      Page.allStudents (page (ui m)) = data).
Proof.
  subst name admission_number phone_number studentRequest. unfold addStudent.
  rewrite clickAdd_handleAddStudent. unfold handleAddStudent.
  rewrite !truthy_trim. intros -> ->. cbn.
  answer; intros H; try discriminate H; answer; repeat split;
    intros data' E; try discriminate E; now injection E as ->.
Qed.

Lemma addStudent_failure (turns : nat) :
  let m := run env (S turns) (addStudent base u) u in
  isBlank name = false -> isBlank admission_number = false ->
  failed (net env 0 Unread studentRequest) = true ->
  ui m = u /\ pending m = [] /\
  exists msg, trace m = [EvRequest studentRequest; EvConsoleError msg].
Proof.
  subst name admission_number phone_number studentRequest. unfold addStudent.
  rewrite clickAdd_handleAddStudent. unfold handleAddStudent.
  rewrite !truthy_trim. intros -> ->. cbn.
  answer; intros H; try discriminate H;
    (split; [now destruct u | split; [reflexivity | eexists; reflexivity]]).
Qed.

End AddingStudent.

(** ** Choosing a faculty *)

Section ChoosingFaculty.

Lemma find_by_id (l : list Faculty.t) (f : Faculty.t) :
  NoDup (map Faculty.id l) -> In f l ->
  find (fun g => String.eqb (Faculty.id g) (Faculty.id f)) l = Some f.
Proof.
  induction l as [|g l IH]; intros Hnd Hin; [contradiction |].
  simpl in Hnd. inversion Hnd as [|x xs Hx Hnd']; subst. simpl.
  destruct Hin as [-> | Hin].
  - now rewrite String.eqb_refl.
  - destruct (String.eqb (Faculty.id g) (Faculty.id f)) eqn:E.
    + apply String.eqb_eq in E. elim Hx. rewrite E. now apply in_map.
    + now apply IH.
Qed.

Lemma find_first {A : Type} (p : A -> bool) (l : list A) (x : A) :
  find p l = Some x ->
  exists earlier later,
    l = (earlier ++ x :: later)%list /\ p x = true /\
    forall y, In y earlier -> p y = false.
Proof.
  induction l as [|a l IH]; simpl; [discriminate |].
  destruct (p a) eqn:E.
  - intros H. injection H as <-. exists [], l. repeat split; [exact E |].
    intros y [].
  - intros H. destruct (IH H) as (earlier & later & -> & Hx & Hy).
    exists (a :: earlier), later. repeat split; [exact Hx |].
    intros y [<- | Hin]; [exact E | now apply Hy].
Qed.

Lemma find_some_of_In {A : Type} (p : A -> bool) (l : list A) (x : A) :
  In x l -> p x = true -> exists y, find p l = Some y.
Proof.
  induction l as [|a l IH]; intros Hin Hp; [contradiction |]. simpl.
  destruct (p a) eqn:E; [now exists a |].
  destruct Hin as [-> | Hin]; [| now apply IH].
  rewrite Hp in E. discriminate E.
Qed.

End ChoosingFaculty.

Example pickFaculty_example :
  let base := "http://localhost:3001" in
  let m := exec obliging (pickFaculty creating "F1") (idle creating) in
  BatchFormData.skillId (Dialog.formData (dialog creating)) = "Math-id" /\
  BatchFormData.skillId (Dialog.formData (dialog (ui m))) = "" /\
  skillOptions base (ui m) = [sampleSkill].
Proof. repeat split. Qed.

(** An error status whose body parses is no failure for [fetchBatches]:
    the body replaces the batch list. *)
Example fetchBatches_error_status_example :
  let env := mkEnv (fun _ => true)
                   (fun _ s _ => Response false (Json (emptyPayload s))) in
  let m := run env 1 (fetchBatches "http://localhost:3001") editing in
  Page.batches (page editing) = [sampleBatch] /\
  Page.batches (page (ui m)) = [] /\
  trace m = [EvRequest (get "http://localhost:3001/api/batches")].
Proof. repeat split. Qed.

(** ** Failures, deletion, student creation and faculty choice *)

(** C2 as stated fails for the skills: with a skill loaded, a skills
    fetch that does not complete empties the list. *)
Lemma C2_failed_skills_fetch_counterexample :
  let base := "http://localhost:3001" in
  let m := run offline 1 (fetchSkills base) creating in
  thrown (net offline 0 AsSkills (get (base ++ "/api/skills"))) = true /\
  Page.skills (page creating) = [sampleSkill] /\
  Page.skills (page (ui m)) = [] /\
  Page.skills (page (ui m)) <> Page.skills (page creating).
Proof. repeat split. discriminate. Qed.

(** C2 (amended): a failure of fetch batches or fetch faculty (the
    request does not complete, or its body does not parse), of delete
    batch or of add student (the request does not complete, or its status
    is not a success) is written to the diagnostic log, shows no
    notification and leaves the whole state as it was; a failure of fetch
    skills (the request does not complete, or its body does not parse) is
    written to the log, shows no notification, and resets the skills
    list to the empty list, leaving the rest of the state as it was. *)
Theorem C2_failures_logged_only
  (base : string) (env : Env) (u : UI) (id : string) (turns : nat) :
  let logged (m : Machine) :=
    existsb isConsoleError (trace m) = true /\
    existsb isToast (trace m) = false in
  (thrown (net env 0 AsBatches (get (base ++ "/api/batches"))) = true ->
     let m := run env (S turns) (fetchBatches base) u in
     logged m /\ ui m = u) /\
  (thrown (net env 0 AsFaculties (get (base ++ "/api/faculty"))) = true ->
     let m := run env (S turns) (fetchFaculties base) u in
     logged m /\ ui m = u) /\
  (thrown (net env 0 AsSkills (get (base ++ "/api/skills"))) = true ->
     let m := run env (S turns) (fetchSkills base) u in
     logged m /\ ui m = mkUI (Page.setSkills [] (page u)) (dialog u)) /\
  (confirm env "Are you sure you want to delete this batch?" = true ->
   failed (net env 0 Unread
             (mkRequest DELETE (base ++ "/api/batches/" ++ id) [] None)) = true ->
     let m := run env (S turns) (handleDeleteBatch base id) u in
     logged m /\ ui m = u) /\
  (isBlank (Dialog.newStudentName (dialog u)) = false ->
   isBlank (Dialog.newStudentAdmissionNumber (dialog u)) = false ->
   failed (net env 0 Unread
             (mkRequest POST (base ++ "/api/students") jsonHeaders
                (Some (studentJson (Dialog.newStudentName (dialog u))
                                   (Dialog.newStudentAdmissionNumber (dialog u))
                                   (Dialog.newStudentPhoneNumber (dialog u)))))) = true ->
     let m := run env (S turns) (addStudent base u) u in
     logged m /\ ui m = u).
Proof.
  intros logged. subst logged. cbv beta zeta.
  split; [| split; [| split; [| split]]].
  - intros H.
    destruct (fetchBatches_thrown base env u turns H) as (Hu & _ & Ht).
    cbv zeta in Hu, Ht. now rewrite Ht, Hu.
  - intros H.
    destruct (fetchFaculties_thrown base env u turns H) as (Hu & _ & Ht).
    cbv zeta in Hu, Ht. now rewrite Ht, Hu.
  - intros H.
    destruct (fetchSkills_thrown base env u turns H) as (Hu & _ & Ht).
    cbv zeta in Hu, Ht. now rewrite Ht, Hu.
  - intros Hc H.
    destruct (delete_failure base env u id turns Hc H) as (Hu & _ & msg & Ht).
    cbv zeta in Hu, Ht. now rewrite Ht, Hu.
  - intros Hn Ha H.
    destruct (addStudent_failure base env u turns Hn Ha H) as (Hu & _ & msg & Ht).
    cbv zeta in Hu, Ht. now rewrite Ht, Hu.
Qed.

Lemma C2_failures_logged_only_witness :
  let base := "http://localhost:3001" in
  let u := addingStudent "Ann" "A-17" "" in
  ui (run offline 1 (fetchBatches base) u) = u /\
  ui (run offline 1 (fetchFaculties base) u) = u /\
  Page.skills (page (ui (run offline 1 (fetchSkills base) u))) = [] /\
  ui (run rejecting 1 (handleDeleteBatch base "B7") u) = u /\
  ui (run rejecting 1 (addStudent base u) u) = u.
Proof.
  intros base u.
  destruct (C2_failures_logged_only base offline u "B7" 0)
    as (Hb & Hf & Hs & _ & _).
  destruct (C2_failures_logged_only base rejecting u "B7" 0)
    as (_ & _ & _ & Hd & Ha).
  destruct (Hb eq_refl) as [_ Hb']. destruct (Hf eq_refl) as [_ Hf'].
  destruct (Hs eq_refl) as [_ Hs']. destruct (Hd eq_refl eq_refl) as [_ Hd'].
  destruct (Ha eq_refl eq_refl eq_refl) as [_ Ha'].
  repeat split; try assumption.
Defined.

(** C6: when the confirmation is declined no request at all is sent, so
    no DELETE; in every run, a DELETE request in the trace has an
    accepted confirmation before it; and an accepted confirmation is
    followed by the one DELETE to [/api/batches/<id>]. *)
Theorem C6_delete_only_after_confirmation
  (base : string) (env : Env) (u : UI) (id : string) (turns : nat) :
  let prompt := "Are you sure you want to delete this batch?" in
  let m := run env turns (handleDeleteBatch base id) u in
  (confirm env prompt = false ->
     requests DELETE (trace m) = [] /\
     (forall req, ~ In (EvRequest req) (trace m)) /\
     ui m = u) /\
  (forall before req after,
     trace m = (before ++ EvRequest req :: after)%list ->
     method req = DELETE ->
     exists p, In (EvConfirm p true) before) /\
  (confirm env prompt = true ->
     requests DELETE (trace m) =
       [mkRequest DELETE (base ++ "/api/batches/" ++ id) [] None]).
Proof.
  intros prompt m. split; [| split].
  - intros H. destruct (delete_declined base env u id turns H) as (Ht & Hu & _).
    fold m in Ht, Hu. rewrite Ht, Hu. repeat split.
    intros req [E | []]. discriminate E.
  - intros before req after E Hm.
    destruct (@deleteGuarded_sound _ _ (delete_guarded base env u id turns)
                                    _ _ _ E Hm)
      as [F | Hp]; [discriminate F | exact Hp].
  - intros H. apply (delete_confirmed base env u id turns H).
Qed.

Lemma C6_delete_only_after_confirmation_witness :
  let base := "http://localhost:3001" in
  requests DELETE
    (trace (run declining 2 (handleDeleteBatch base "B7") editing)) = [] /\
  requests DELETE
    (trace (run obliging 2 (handleDeleteBatch base "B7") editing)) =
    [mkRequest DELETE "http://localhost:3001/api/batches/B7" [] None] /\
  exists p,
    In (EvConfirm p true)
       [EvConfirm "Are you sure you want to delete this batch?" true].
Proof.
  intros base.
  destruct (C6_delete_only_after_confirmation base declining editing "B7" 2)
    as (Hno & _ & _).
  destruct (C6_delete_only_after_confirmation base obliging editing "B7" 2)
    as (_ & Hbefore & Hyes).
  split; [apply (Hno eq_refl) | split; [apply (Hyes eq_refl) |]].
  exact (Hbefore
           [EvConfirm "Are you sure you want to delete this batch?" true]
           (mkRequest DELETE "http://localhost:3001/api/batches/B7" [] None)
           [EvRequest (get "http://localhost:3001/api/batches")]
           eq_refl eq_refl).
Defined.

(** C7 as stated fails for a name of white space only: name and
    admission number are both non-empty, the button is enabled, and no
    POST is sent. *)
Lemma C7_blank_name_counterexample :
  let base := "http://localhost:3001" in
  let u := addingStudent " " "A-17" "" in
  Dialog.newStudentName (dialog u) <> "" /\
  Dialog.newStudentAdmissionNumber (dialog u) <> "" /\
  addDisabled (dialog u) = false /\
  requests POST (trace (run obliging 2 (addStudent base u) u)) = [].
Proof. repeat split; discriminate. Qed.

(** C7 (amended): inline student creation sends a POST to the students
    endpoint exactly when the name and the admission number each hold a
    character that is not white space (the phone number is free); with an
    empty name it does nothing and sends no POST; and after a successful
    POST the student list is fetched again and the three input fields are
    cleared. *)
Theorem C7_inline_student_creation
  (base : string) (env : Env) (u : UI) (turns : nat) :
  let name := Dialog.newStudentName (dialog u) in
  let admission_number := Dialog.newStudentAdmissionNumber (dialog u) in
  let phone_number := Dialog.newStudentPhoneNumber (dialog u) in
  let post :=
    mkRequest POST (base ++ "/api/students") jsonHeaders
              (Some (studentJson name admission_number phone_number)) in
  let m := run env turns (addStudent base u) u in
  (requests POST (trace m) = [post] <->
     isBlank name = false /\ isBlank admission_number = false) /\
  (requests POST (trace m) = [] <->
     isBlank name = true \/ isBlank admission_number = true) /\
  (name = "" -> trace m = [] /\ ui m = u) /\
  (isBlank name = false -> isBlank admission_number = false ->
   failed (net env 0 Unread post) = false -> 2 <= turns ->
     firstn 2 (trace m) =
       [EvRequest post; EvRequest (get (base ++ "/api/students"))] /\
     Dialog.newStudentName (dialog (ui m)) = "" /\
     Dialog.newStudentAdmissionNumber (dialog (ui m)) = "" /\
     Dialog.newStudentPhoneNumber (dialog (ui m)) = "" /\
     (forall data,
        net env 1 AsStudents (get (base ++ "/api/students")) =
          Response true (Json data) ->
        Page.allStudents (page (ui m)) = data)).
Proof.
  intros name admission_number phone_number post m.
  assert (Hblank : isBlank name = true \/ isBlank admission_number = true ->
                   trace m = [] /\ ui m = u).
  { intros H. destruct (addStudent_blank base env u turns H) as (Ht & Hu & _).
    now split. }
  assert (Hposts : isBlank name = false /\ isBlank admission_number = false ->
                   requests POST (trace m) = [post]).
  { intros [Hn Ha]. exact (addStudent_posts base env u turns Hn Ha). }
  split; [| split; [| split]].
  - split; [| exact Hposts].
    intros E. destruct (isBlank name) eqn:En.
    + destruct Hblank as [Ht _]; [now left |]. rewrite Ht in E. discriminate E.
    + destruct (isBlank admission_number) eqn:Ea; [| now split].
      destruct Hblank as [Ht _]; [now right |]. rewrite Ht in E. discriminate E.
  - split.
    + intros E. destruct (isBlank name) eqn:En; [now left |].
      destruct (isBlank admission_number) eqn:Ea; [now right |].
      rewrite Hposts in E by now split. discriminate E.
    + intros H. destruct (Hblank H) as [Ht _]. now rewrite Ht.
  - intros E. apply Hblank. left. now rewrite E.
  - intros Hn Ha Hok Hturns. destruct turns as [|[|n]]; try lia.
    destruct (addStudent_success base env u n Hn Ha Hok)
      as (Hf & _ & H1 & H2 & H3 & _ & Hd).
    repeat split; assumption.
Qed.

Lemma C7_inline_student_creation_witness :
  let base := "http://localhost:3001" in
  let u := addingStudent "Ann" "A-17" "" in
  let m := run obliging 2 (addStudent base u) u in
  requests POST (trace m) =
    [mkRequest POST "http://localhost:3001/api/students" jsonHeaders
               (Some (studentJson "Ann" "A-17" ""))] /\
  trace (run obliging 2 (addStudent base (addingStudent "" "A-17" ""))
             (addingStudent "" "A-17" "")) = [] /\
  firstn 2 (trace m) =
    [EvRequest (mkRequest POST "http://localhost:3001/api/students" jsonHeaders
                          (Some (studentJson "Ann" "A-17" "")));
     EvRequest (get "http://localhost:3001/api/students")] /\
  Dialog.newStudentName (dialog (ui m)) = "".
Proof.
  intros base u m.
  destruct (C7_inline_student_creation base obliging u 2) as ([_ Hp] & _ & _ & Hs).
  destruct (C7_inline_student_creation base obliging (addingStudent "" "A-17" "") 2)
    as (_ & _ & He & _).
  destruct (Hs eq_refl eq_refl eq_refl (le_n 2)) as (Hf & Hn & _).
  destruct (He eq_refl) as [Ht _].
  split; [apply Hp; now split | split; [exact Ht | split; [exact Hf | exact Hn]]].
Defined.

(** C8 as stated fails when two faculty records share an id: the one
    offered faculty with id [F2] teaches mathematics, and after it is
    chosen the skills offered are those of the inactive record with the
    same id that comes first in the list. *)
Lemma C8_shared_id_counterexample :
  let base := "http://localhost:3001" in
  let m := exec obliging (pickFaculty doubled "F2") (idle doubled) in
  facultyOptions (dialogProps base (page doubled)) = [currentRecord] /\
  Faculty.id currentRecord = "F2" /\
  Faculty.skills currentRecord = [sampleSkill] /\
  skillOptions base (ui m) = [scienceSkill] /\
  skillOptions base (ui m) <> Faculty.skills currentRecord.
Proof. repeat split. discriminate. Qed.

(** C8 (amended): choosing a faculty value is one state update that sets
    the faculty, empties the skill selection and leaves every other form
    field as it was; when the value is the id of an offered faculty, the
    skills offered afterwards are the skills assigned to the first
    faculty of the list that has this id, which is the chosen faculty
    whenever no two faculties of the list share an id. *)
Theorem C8_faculty_change_resets_skill
  (base : string) (env : Env) (u : UI) (value : string) :
  let before := Dialog.formData (dialog u) in
  let m := exec env (pickFaculty u value) (idle u) in
  let after := Dialog.formData (dialog (ui m)) in
  (exists g, pickFaculty u value = Update g Done) /\
  (BatchFormData.facultyId after = value /\
   BatchFormData.skillId after = "") /\
  (BatchFormData.name after = BatchFormData.name before /\
   BatchFormData.description after = BatchFormData.description before /\
   BatchFormData.startDate after = BatchFormData.startDate before /\
   BatchFormData.endDate after = BatchFormData.endDate before /\
   BatchFormData.startTime after = BatchFormData.startTime before /\
   BatchFormData.endTime after = BatchFormData.endTime before /\
   BatchFormData.maxStudents after = BatchFormData.maxStudents before /\
   BatchFormData.status after = BatchFormData.status before /\
   BatchFormData.studentIds after = BatchFormData.studentIds before /\
   BatchFormData.daysOfWeek after = BatchFormData.daysOfWeek before) /\
  (page (ui m) = page u /\ trace m = [] /\ pending m = []) /\
  (forall f,
     In f (facultyOptions (dialogProps base (page u))) ->
     Faculty.id f = value ->
     exists first earlier later,
       Page.faculties (page u) = (earlier ++ first :: later)%list /\
       Faculty.id first = value /\
       (forall g, In g earlier -> Faculty.id g <> value) /\
       skillOptions base (ui m) = Faculty.skills first) /\
  (forall f,
     In f (facultyOptions (dialogProps base (page u))) ->
     NoDup (map Faculty.id (Page.faculties (page u))) ->
     Faculty.id f = value ->
     skillOptions base (ui m) = Faculty.skills f).
Proof.
  intros before m after. split; [eexists; reflexivity |].
  split; [now split |]. split; [repeat split |]. split; [repeat split |].
  split.
  - intros f Hin Hid. unfold facultyOptions in Hin.
    apply filter_In in Hin as [Hin _].
    unfold skillOptions, availableSkills, selectedFaculty. cbn in *.
    destruct (find_some_of_In
                (fun g => String.eqb (Faculty.id g) value)
                (Page.faculties (page u)) f Hin) as [first Hfind].
    { rewrite Hid. apply String.eqb_refl. }
    rewrite Hfind.
    destruct (find_first _ _ Hfind) as (earlier & later & Hl & Hfirst & Hearlier).
    exists first, earlier, later. apply String.eqb_eq in Hfirst.
    repeat split; [exact Hl | exact Hfirst |].
    intros g Hg. apply String.eqb_neq. now apply Hearlier.
  - intros f Hin Hnd <-. unfold facultyOptions in Hin.
    apply filter_In in Hin as [Hin _].
    unfold skillOptions, availableSkills, selectedFaculty. cbn in *.
    now rewrite (find_by_id _ _ Hnd Hin).
Qed.

Lemma C8_faculty_change_resets_skill_witness :
  let base := "http://localhost:3001" in
  let m := exec obliging (pickFaculty staffed "F3") (idle staffed) in
  Dialog.skills (dialog staffed) = [] /\
  BatchFormData.skillId (Dialog.formData (dialog staffed)) = "Math-id" /\
  BatchFormData.skillId (Dialog.formData (dialog (ui m))) = "" /\
  skillOptions base (ui m) = [scienceSkill] /\
  exists first earlier later,
    Page.faculties (page staffed) = (earlier ++ first :: later)%list /\
    Faculty.id first = "F3" /\
    (forall g, In g earlier -> Faculty.id g <> "F3") /\
    skillOptions base (ui m) = Faculty.skills first.
Proof.
  intros base m.
  destruct (C8_faculty_change_resets_skill base obliging staffed "F3")
    as (_ & [_ Hskill] & _ & _ & Hfirst & Hopts).
  split; [reflexivity |]. split; [reflexivity |]. split; [exact Hskill |].
  split.
  - apply (Hopts scienceFaculty).
    + simpl. right. now left.
    + simpl. repeat constructor; simpl; intuition discriminate.
    + reflexivity.
  - apply (Hfirst scienceFaculty); [simpl; right; now left | reflexivity].
Defined.

(** * Further properties *)

(** ** The resolver, case by case *)

Section ResolverCases.

Import JsString Api.

Lemma append_assoc (a b c : string) : (a ++ b) ++ c = a ++ b ++ c.
Proof. induction a as [|x a IH]; simpl; [reflexivity | now rewrite IH]. Qed.

Lemma lastChar_append (s t : string) :
  t <> "" -> lastChar (s ++ t) = lastChar t.
Proof.
  intros Ht. induction s as [|c s IH]; [reflexivity |].
  simpl. destruct (s ++ t) eqn:E; [| exact IH].
  destruct s; simpl in E; [now elim Ht | discriminate E].
Qed.

Lemma getApiBaseUrl_cases (s : string) :
  s <> "" ->
  getApiBaseUrl (Some s) = s \/
  getApiBaseUrl (Some s) = "http://" ++ s ++ "/api" \/
  getApiBaseUrl (Some s) = "https://" ++ s ++ "/api".
Proof.
  intros Hs. apply truthy_spec in Hs. unfold getApiBaseUrl. rewrite Hs. cbn [negb].
  destruct (startsWith s "http://" || startsWith s "https://"); [now left |].
  destruct (includes s "localhost" || match_192_168 s); auto.
Qed.

End ResolverCases.

(** X1: the resolver gives the development origin [http://localhost:3001]
    for exactly three configurations: none, the empty string, and that
    origin itself. *)
Theorem X1_default_origin_iff (raw : option string) :
  Api.getApiBaseUrl raw = "http://localhost:3001" <->
  raw = None \/ raw = Some "" \/ raw = Some "http://localhost:3001".
Proof.
  split.
  - destruct raw as [s|]; [| now left]. intros H. right.
    destruct s as [|c s]; [now left |]. right.
    destruct (@getApiBaseUrl_cases (String c s)) as [E | [E | E]];
      [discriminate | | |]; rewrite E in H.
    + now rewrite H.
    + exfalso.
      assert (L : lastChar ("http://" ++ String c s ++ "/api") = lastChar "/api")
        by (rewrite <- append_assoc; apply lastChar_append; discriminate).
      rewrite H in L. discriminate L.
    + discriminate H.
  - intros [-> | [-> | ->]]; reflexivity.
Qed.

(** X2: an origin with the insecure scheme [http://] comes out only for
    no configuration, the empty one, one that itself begins with
    [http://], or one that names a local host ([localhost] inside, or
    [192.168.] in front). *)
Theorem X2_insecure_scheme_only_for_local (raw : option string) :
  beginsWith (Api.getApiBaseUrl raw) "http://" ->
  raw = None \/ raw = Some "" \/
  exists s, raw = Some s /\
            (beginsWith s "http://" \/ contains s "localhost" \/
             beginsWith s "192.168.").
Proof.
  intros H. destruct raw as [s|]; [| now left]. right.
  destruct s as [|c s]; [now left |]. right. exists (String c s). split; [reflexivity |].
  revert H. rewrite <- !startsWith_spec, <- includes_spec.
  unfold Api.getApiBaseUrl. cbn [JsString.truthy negb].
  destruct (JsString.startsWith (String c s) "http://") eqn:E1; [now left |].
  cbn [orb].
  destruct (JsString.startsWith (String c s) "https://") eqn:E2.
  - intros H. rewrite H in E1. discriminate E1.
  - unfold Api.match_192_168.
    destruct (JsString.includes (String c s) "localhost") eqn:E3; [now auto |].
    destruct (JsString.startsWith (String c s) "192.168.") eqn:E4; [now auto |].
    cbn [orb]. intros H. discriminate H.
Qed.

Lemma X2_insecure_scheme_only_for_local_witness :
  Some "192.168.1.7:3001" = None \/ Some "192.168.1.7:3001" = Some "" \/
  exists s, Some "192.168.1.7:3001" = Some s /\
            (beginsWith s "http://" \/ contains s "localhost" \/
             beginsWith s "192.168.").
Proof.
  apply X2_insecure_scheme_only_for_local.
  apply startsWith_spec. reflexivity.
Defined.

(** X3: with a non-empty configuration that has no scheme, the base URL
    already ends in [/api] and the page appends [/api/...] again: the
    batch list is requested from [<scheme><input>/api/api/batches]; with
    a configuration that has a scheme the path is [<input>/api/batches]. *)
Theorem X3_api_segment_twice (env : Env) (u : UI) (s : string) :
  s <> "" ->
  let sent := trace (exec env (fetchBatches (Api.API_BASE_URL (Some s))) (idle u)) in
  (beginsWith s "http://" \/ beginsWith s "https://" ->
     sent = [EvRequest (get (s ++ "/api/batches"))]) /\
  (~ beginsWith s "http://" -> ~ beginsWith s "https://" ->
     sent = [EvRequest (get ((if Api.isLocalHost s then "http://" else "https://")
                             ++ s ++ "/api/api/batches"))]).
Proof.
  intros Hs sent. subst sent. unfold Api.API_BASE_URL. cbn [fetchBatches exec].
  cbn [emit suspend trace idle app]. split.
  - intros H. rewrite <- !startsWith_spec, <- orb_true_iff in H.
    now rewrite (getApiBaseUrl_with_scheme _ H).
  - intros H1 H2. apply startsWith_false_spec in H1, H2.
    rewrite (getApiBaseUrl_schemeless Hs H1 H2).
    destruct (Api.isLocalHost s); now rewrite !append_assoc.
Qed.

Lemma X3_api_segment_twice_witness :
  trace (exec obliging (fetchBatches (Api.API_BASE_URL (Some "example.org")))
              (idle creating)) =
    [EvRequest (get "https://example.org/api/api/batches")].
Proof.
  apply (X3_api_segment_twice obliging creating (s := "example.org")).
  - discriminate.
  - apply startsWith_false_spec. reflexivity.
  - apply startsWith_false_spec. reflexivity.
Defined.

(** ** Check boxes *)

Section Toggling.

Lemma includesItem_spec (l : list string) (x : string) :
  includesItem l x = true <-> In x l.
Proof.
  unfold includesItem. rewrite existsb_exists. split.
  - intros (y & Hy & E). apply String.eqb_eq in E. now subst.
  - intros H. exists x. split; [exact H | apply String.eqb_refl].
Qed.

Lemma includesItem_app (l l' : list string) (x : string) :
  includesItem (l ++ l')%list x = includesItem l x || includesItem l' x.
Proof. apply existsb_app. Qed.

Lemma includesItem_filter_neq (l : list string) (x y : string) :
  includesItem (filter (fun z => negb (String.eqb z x)) l) y =
  negb (String.eqb y x) && includesItem l y.
Proof.
  induction l as [|z l IH]; simpl; [now rewrite andb_false_r |].
  destruct (String.eqb z x) eqn:Ezx; simpl.
  - rewrite IH. destruct (String.eqb y z) eqn:Eyz; simpl; [| reflexivity].
    apply String.eqb_eq in Eyz, Ezx. subst. rewrite String.eqb_refl. reflexivity.
  - rewrite IH. destruct (String.eqb y z) eqn:Eyz; simpl; [| reflexivity].
    apply String.eqb_eq in Eyz. subst. rewrite Ezx. reflexivity.
Qed.

Lemma toggle_includes (l : list string) (x y : string) :
  includesItem (toggle l x) y =
  if String.eqb y x then negb (includesItem l x) else includesItem l y.
Proof.
  unfold toggle. destruct (includesItem l x) eqn:E.
  - rewrite includesItem_filter_neq.
    destruct (String.eqb y x); reflexivity.
  - rewrite includesItem_app. simpl. rewrite orb_false_r.
    destruct (String.eqb y x) eqn:Eyx.
    + apply String.eqb_eq in Eyx. subst. now rewrite E.
    + apply orb_false_r.
Qed.

Lemma toggle_NoDup (l : list string) (x : string) :
  NoDup l -> NoDup (toggle l x).
Proof.
  intros H. unfold toggle. destruct (includesItem l x) eqn:E.
  - now apply NoDup_filter.
  - apply NoDup_app; [exact H | repeat constructor; intros [] |].
    intros y Hy [<- | []].
    apply includesItem_spec in Hy. rewrite Hy in E. discriminate E.
Qed.

Lemma toggle_absent_twice (l : list string) (x : string) :
  includesItem l x = false -> toggle (toggle l x) x = l.
Proof.
  intros E. unfold toggle at 2. rewrite E. unfold toggle.
  rewrite includesItem_app. simpl. rewrite String.eqb_refl, orb_true_r.
  rewrite filter_app. simpl. rewrite String.eqb_refl. simpl.
  rewrite app_nil_r. apply filter_all.
  intros y Hy. destruct (String.eqb y x) eqn:Eyx; [| reflexivity].
  apply String.eqb_eq in Eyx. subst.
  apply includesItem_spec in Hy. rewrite Hy in E. discriminate E.
Qed.

End Toggling.

(** X4: ticking a student's check box flips that box and no other,
    leaves the rest of the form and the page as they were and sends
    nothing; a selection without duplicates stays so; and ticking then
    unticking a student who was not selected gives back the very same
    list.  The same holds for the weekday boxes. *)
Theorem X4_check_boxes_toggle (env : Env) (u : UI) (x : string) :
  let before := Dialog.formData (dialog u) in
  let ms := exec env (handleStudentToggle x) (idle u) in
  let md := exec env (handleDayToggle x) (idle u) in
  (studentChecked (dialog (ui ms)) x = negb (studentChecked (dialog u) x) /\
   (forall y, y <> x ->
      studentChecked (dialog (ui ms)) y = studentChecked (dialog u) y) /\
   withStudentIds (BatchFormData.studentIds before)
                  (Dialog.formData (dialog (ui ms))) = before /\
   page (ui ms) = page u /\ trace ms = [] /\ pending ms = [] /\
   (NoDup (BatchFormData.studentIds before) ->
    NoDup (BatchFormData.studentIds (Dialog.formData (dialog (ui ms))))) /\
   (studentChecked (dialog u) x = false ->
    BatchFormData.studentIds
      (Dialog.formData
         (dialog (ui (exec env (handleStudentToggle x) (idle (ui ms)))))) =
    BatchFormData.studentIds before)) /\
  (dayChecked (dialog (ui md)) x = negb (dayChecked (dialog u) x) /\
   (forall y, y <> x ->
      dayChecked (dialog (ui md)) y = dayChecked (dialog u) y) /\
   withDaysOfWeek (BatchFormData.daysOfWeek before)
                  (Dialog.formData (dialog (ui md))) = before /\
   page (ui md) = page u /\ trace md = [] /\ pending md = [] /\
   (NoDup (BatchFormData.daysOfWeek before) ->
    NoDup (BatchFormData.daysOfWeek (Dialog.formData (dialog (ui md))))) /\
   (dayChecked (dialog u) x = false ->
    BatchFormData.daysOfWeek
      (Dialog.formData
         (dialog (ui (exec env (handleDayToggle x) (idle (ui md)))))) =
    BatchFormData.daysOfWeek before)).
Proof.
  intros before ms md. subst before ms md. unfold studentChecked, dayChecked.
  destruct u as [p [[n d sd ed st et f k mx s ids days] sk ld nn na np ss]].
  cbn -[toggle includesItem]. split.
  - split; [now rewrite toggle_includes, String.eqb_refl |].
    split; [intros y Hy; rewrite toggle_includes;
            now apply String.eqb_neq in Hy as -> |].
    repeat split; [apply toggle_NoDup | apply toggle_absent_twice].
  - split; [now rewrite toggle_includes, String.eqb_refl |].
    split; [intros y Hy; rewrite toggle_includes;
            now apply String.eqb_neq in Hy as -> |].
    repeat split; [apply toggle_NoDup | apply toggle_absent_twice].
Qed.

Lemma X4_check_boxes_toggle_witness :
  let ms := exec obliging (handleStudentToggle "S1") (idle creating) in
  studentChecked (dialog (ui ms)) "S1" = true /\
  NoDup (BatchFormData.studentIds (Dialog.formData (dialog (ui ms)))) /\
  BatchFormData.studentIds
    (Dialog.formData
       (dialog (ui (exec obliging (handleStudentToggle "S1") (idle (ui ms)))))) =
  [].
Proof.
  intros ms.
  destruct (X4_check_boxes_toggle obliging creating "S1")
    as ((Hflip & _ & _ & _ & _ & _ & Hnd & Hback) & _).
  split; [exact Hflip | split; [apply Hnd; constructor | apply Hback; reflexivity]].
Defined.

(** ** Searching *)

Section Searching.




End Searching.





(** ** Loading and viewing *)

Section Answers.

Variable env : Env.

Lemma requests_app (mth : Method) (a b : list Event) :
  requests mth (a ++ b)%list = (requests mth a ++ requests mth b)%list.
Proof. apply flat_map_app. Qed.

Lemma requests_fetchLog {A : Type} (mth : Method) (msg : string) (o : Outcome A) :
  requests mth (fetchLog msg o) = [].
Proof. unfold fetchLog. now destruct (thrown o). Qed.

Lemma requests_studentsToast {A : Type} (mth : Method) (o : Outcome A) :
  requests mth (studentsToast o) = [].
Proof. now destruct o as [?|[|] [?|?]]. Qed.

Lemma batches_answered (o : Outcome (list Batch.t)) (m : Machine) :
  exec env
    match o with
    | Response _ (Json data) => Update (onPage (Page.setBatches data)) ;; Done
    | Response _ (SyntaxError _) | NetworkError _ =>
        ConsoleError "Error fetching batches:" ;; Done
    end m =
  mkMachine
    (mkUI (Page.setBatches (parsedOr o (Page.batches (page (ui m)))) (page (ui m)))
          (dialog (ui m)))
    (trace m ++ fetchLog "Error fetching batches:" o)%list (pending m) (served m).
Proof.
  destruct m as [[[b f s t o1 o2 sel r a] d] tr pd sv].
  destruct o as [?|? [?|?]]; cbn; now rewrite ?app_nil_r.
Qed.

Lemma faculties_answered (o : Outcome (list Faculty.t)) (m : Machine) :
  exec env
    match o with
    | Response _ (Json data) => Update (onPage (Page.setFaculties data)) ;; Done
    | Response _ (SyntaxError _) | NetworkError _ =>
        ConsoleError "Error fetching faculties:" ;; Done
    end m =
  mkMachine
    (mkUI (Page.setFaculties (parsedOr o (Page.faculties (page (ui m))))
                             (page (ui m)))
          (dialog (ui m)))
    (trace m ++ fetchLog "Error fetching faculties:" o)%list (pending m) (served m).
Proof.
  destruct m as [[[b f s t o1 o2 sel r a] d] tr pd sv].
  destruct o as [?|? [?|?]]; cbn; now rewrite ?app_nil_r.
Qed.

Lemma skills_answered (o : Outcome SkillsJson) (m : Machine) :
  exec env
    match o with
    | Response _ (Json (IsArray data)) =>
        Update (onPage (Page.setSkills data)) ;; Done
    | Response _ (Json NotArray) =>
        Update (onPage (Page.setSkills [])) ;; Done
    | Response _ (SyntaxError _) | NetworkError _ =>
        ConsoleError "Error fetching skills:" ;;
        Update (onPage (Page.setSkills [])) ;; Done
    end m =
  mkMachine
    (mkUI (Page.setSkills (skillsOf o) (page (ui m))) (dialog (ui m)))
    (trace m ++ fetchLog "Error fetching skills:" o)%list (pending m) (served m).
Proof.
  destruct m as [[[b f s t o1 o2 sel r a] d] tr pd sv].
  destruct o as [?|? [[?|]|?]]; cbn; now rewrite ?app_nil_r.
Qed.

Lemma students_answered (o : Outcome (list Student.t)) (m : Machine) :
  exec env
    match o with
    | Response true (Json data) =>
        Update (onPage (Page.setAllStudents data)) ;; Done
    | Response false _ =>
        ToastError "Error fetching students"
                   "Could not fetch the list of all students." ;; Done
    | Response true (SyntaxError message) | NetworkError message =>
        ToastError "Error fetching students"
                   ("An error occurred: " ++ message) ;; Done
    end m =
  mkMachine
    (mkUI (Page.setAllStudents (okParsedOr o (Page.allStudents (page (ui m))))
                               (page (ui m)))
          (dialog (ui m)))
    (trace m ++ studentsToast o)%list (pending m) (served m).
Proof.
  destruct m as [[[b f s t o1 o2 sel r a] d] tr pd sv].
  destruct o as [?|[|] [?|?]]; cbn; now rewrite ?app_nil_r.
Qed.

End Answers.

(** X7: mounting the page sends the four GET requests for batches,
    faculty, skills and students, and nothing else; when they have
    completed, each collection depends on its own response only: batches
    and faculty take the body when it parsed and keep their value
    otherwise, skills take the array or become empty, students take the
    body of a success and keep their value otherwise. *)
Theorem X7_mount_loads_each_collection
  (base : string) (env : Env) (u : UI) (turns : nat) :
  let rB := get (base ++ "/api/batches") in
  let rF := get (base ++ "/api/faculty") in
  let rS := get (base ++ "/api/skills") in
  let rA := get (base ++ "/api/students") in
  let m := run env (4 + turns) (onMount base) u in
  firstn 4 (trace m) = [EvRequest rB; EvRequest rF; EvRequest rS; EvRequest rA] /\
  requests GET (trace m) = [rB; rF; rS; rA] /\
  requests POST (trace m) = [] /\ requests PUT (trace m) = [] /\
  requests DELETE (trace m) = [] /\
  pending m = [] /\
  ui m =
    mkUI (Page.setAllStudents
            (okParsedOr (net env 3 AsStudents rA) (Page.allStudents (page u)))
         (Page.setSkills (skillsOf (net env 2 AsSkills rS))
         (Page.setFaculties
            (parsedOr (net env 1 AsFaculties rF) (Page.faculties (page u)))
         (Page.setBatches
            (parsedOr (net env 0 AsBatches rB) (Page.batches (page u)))
            (page u)))))
         (dialog u).
Proof.
  cbn -[fetchLog studentsToast].
  rewrite batches_answered. cbn -[fetchLog studentsToast].
  rewrite faculties_answered. cbn -[fetchLog studentsToast].
  rewrite skills_answered. cbn -[fetchLog studentsToast].
  rewrite students_answered. cbn -[fetchLog studentsToast requests].
  rewrite settle_quiescent by reflexivity. cbn -[fetchLog studentsToast requests].
  change (?a :: ?b :: ?c :: ?d :: ?l)%list with ([a; b; c; d] ++ l)%list.
  rewrite !requests_app, !requests_fetchLog, !requests_studentsToast.
  repeat split.
Qed.

(** X8: a students fetch that fails in any way (the request does not
    complete, the status is not a success, or the body does not parse)
    shows one notification, writes nothing to the log and keeps the
    student list; a success replaces the list and shows nothing.  No
    other part of the state changes. *)
Theorem X8_students_fetch_notifies
  (base : string) (env : Env) (u : UI) (turns : nat) :
  let req := get (base ++ "/api/students") in
  let o := net env 0 AsStudents req in
  let m := run env (S turns) (fetchAllStudents base) u in
  ui m = mkUI (Page.setAllStudents (okParsedOr o (Page.allStudents (page u)))
                                   (page u))
              (dialog u) /\
  trace m = (EvRequest req :: studentsToast o)%list /\
  existsb isConsoleError (trace m) = false /\
  (forall data, o = Response true (Json data) ->
     Page.allStudents (page (ui m)) = data /\ existsb isToast (trace m) = false) /\
  ((forall data, o <> Response true (Json data)) ->
     Page.allStudents (page (ui m)) = Page.allStudents (page u) /\
     List.length (filter isToast (trace m)) = 1).
Proof.
  cbn -[studentsToast]. rewrite students_answered. cbn -[studentsToast].
  rewrite settle_quiescent by reflexivity. cbn -[studentsToast].
  split; [reflexivity |]. split; [reflexivity |].
  destruct (net env 0 AsStudents (get (base ++ "/api/students")))
    as [msg|[|] [data|msg]]; cbn; (split; [reflexivity |]); split;
    try (intros data' E; discriminate E);
    try (intros H; now split).
  - intros data' E. injection E as ->. now split.
  - intros H. now elim (H data).
Qed.

Lemma X8_students_fetch_notifies_witness :
  let m := run rejecting 1 (fetchAllStudents "http://localhost:3001") creating in
  Page.allStudents (page (ui m)) = Page.allStudents (page creating) /\
  List.length (filter isToast (trace m)) = 1.
Proof.
  intros m.
  destruct (X8_students_fetch_notifies "http://localhost:3001" rejecting creating 0)
    as (_ & _ & _ & _ & H).
  apply H. intros data E. discriminate E.
Defined.

Lemma rosterRows_facts (data : list Student.t) :
  rosterRows data <> [] /\
  (data = [] <-> rosterRows data = [NoStudentsRow]) /\
  (data <> [] ->
     rosterRows data =
       map (fun s => StudentRow (Student.name s) (Student.admission_number s)
                                (Student.phone_number s)) data).
Proof.
  destruct data as [|s data]; cbn.
  - split; [discriminate |]. split; [now split |]. intros H. now elim H.
  - split; [discriminate |]. split; [| reflexivity].
    split; intros H; discriminate H.
Qed.

(** X9: viewing the students of a batch selects that batch; when the
    roster arrives the roster dialog is shown, titled with the name of
    that batch, with one row per student in the order received, or the
    single placeholder row when the roster is empty; when the request
    does not complete or the body does not parse, the failure is logged,
    nothing is notified, and the roster dialog and its students stay as
    they were. *)
Theorem X9_view_students
  (base : string) (env : Env) (u : UI) (batch : Batch.t) (turns : nat) :
  let req := get (base ++ "/api/batches/" ++ Batch.id batch ++ "/students") in
  let o := net env 0 AsStudents req in
  let m := run env (S turns) (handleViewStudents base batch) u in
  Page.selectedBatch (page (ui m)) = Some batch /\
  requests GET (trace m) = [req] /\
  existsb isToast (trace m) = false /\
  (forall ok data, o = Response ok (Json data) ->
     rosterShown (page (ui m)) =
       Some ((JsText.ofString "Students in " ++ Batch.name batch)%list,
             rosterRows data) /\
     rosterRows data <> [] /\
     (data = [] <-> rosterRows data = [NoStudentsRow]) /\
     (data <> [] ->
        rosterRows data =
          map (fun s => StudentRow (Student.name s) (Student.admission_number s)
                                   (Student.phone_number s)) data) /\
     existsb isConsoleError (trace m) = false) /\
  (thrown o = true ->
     Page.isStudentListOpen (page (ui m)) = Page.isStudentListOpen (page u) /\
     Page.studentsOfSelectedBatch (page (ui m)) =
       Page.studentsOfSelectedBatch (page u) /\
     trace m = [EvRequest req; EvConsoleError "Error fetching students:"]).
Proof.
  cbn -[rosterRows].
  destruct (net env 0 AsStudents _) as [msg|ok [data|msg]];
    cbn -[rosterRows]; rewrite settle_quiescent by reflexivity;
    cbn -[rosterRows];
    (split; [reflexivity | split; [reflexivity | split; [reflexivity | split]]]).
  - intros ok' data' E. discriminate E.
  - intros _. repeat split.
  - intros ok' data' E. injection E as _ <-.
    split; [reflexivity |]. destruct (rosterRows_facts data) as (H1 & H2 & H3).
    repeat split; try assumption; apply H2.
  - intros H. discriminate H.
  - intros ok' data' E. discriminate E.
  - intros _. repeat split.
Qed.

Lemma X9_view_students_witness :
  let m := run obliging 1 (handleViewStudents "http://localhost:3001" sampleBatch)
               creating in
  rosterShown (page (ui m)) =
    Some (JsText.ofString "Students in Algebra-1", [NoStudentsRow]) /\
  trace (run offline 1 (handleViewStudents "http://localhost:3001" sampleBatch)
             creating) =
    [EvRequest (get "http://localhost:3001/api/batches/B7/students");
     EvConsoleError "Error fetching students:"].
Proof.
  intros m.
  destruct (X9_view_students "http://localhost:3001" obliging creating sampleBatch 0)
    as (_ & _ & _ & Hok & _).
  destruct (X9_view_students "http://localhost:3001" offline creating sampleBatch 0)
    as (_ & _ & _ & _ & Hko).
  destruct (Hok true [] eq_refl) as (Hshown & _).
  destruct (Hko eq_refl) as (_ & _ & Htrace).
  split; [exact Hshown | exact Htrace].
Defined.

(** X10: a confirmed delete that the backend accepts is followed by a
    fetch of the batch list, whose body (when it parses) replaces the
    list shown; nothing else in the state changes and nothing is
    notified. *)
Theorem X10_delete_success_refetches
  (base : string) (env : Env) (u : UI) (id : string) (turns : nat) :
  let prompt := "Are you sure you want to delete this batch?" in
  let del := mkRequest DELETE (base ++ "/api/batches/" ++ id) [] None in
  let rB := get (base ++ "/api/batches") in
  let m := run env (2 + turns) (handleDeleteBatch base id) u in
  confirm env prompt = true ->
  failed (net env 0 Unread del) = false ->
  trace m = ([EvConfirm prompt true; EvRequest del; EvRequest rB] ++
             fetchLog "Error fetching batches:" (net env 1 AsBatches rB))%list /\
  existsb isToast (trace m) = false /\
  pending m = [] /\
  ui m = mkUI (Page.setBatches
                 (parsedOr (net env 1 AsBatches rB) (Page.batches (page u)))
                 (page u))
              (dialog u).
Proof.
  cbn -[fetchLog]. intros ->. cbn -[fetchLog].
  destruct (net env 0 Unread _) as [msg|[|] j]; intros H; try discriminate H.
  cbn -[fetchLog]. rewrite batches_answered. cbn -[fetchLog].
  rewrite settle_quiescent by reflexivity. cbn -[fetchLog].
  repeat split. unfold fetchLog. now destruct (thrown _).
Qed.

Lemma X10_delete_success_refetches_witness :
  let m := run obliging 2 (handleDeleteBatch "http://localhost:3001" "B7") editing in
  Page.batches (page editing) = [sampleBatch] /\
  Page.batches (page (ui m)) = [] /\
  requests GET (trace m) = [get "http://localhost:3001/api/batches"].
Proof.
  intros m.
  destruct (X10_delete_success_refetches "http://localhost:3001" obliging editing
              "B7" 0 eq_refl eq_refl) as (Ht & _ & _ & Hu).
  change (2 + 0) with 2 in Ht, Hu. fold m in Ht, Hu. rewrite Ht, Hu.
  repeat split.
Defined.

(** X11: the mode of the dialog decides the request.  After Edit on a
    batch the dialog is titled [Edit Batch] and, once the form holds
    [formData], a submit sends one PUT to that batch with [formData] as
    body and no POST; after Add Batch it is titled [Create New Batch] and
    a submit sends one POST and no PUT, whatever was selected before.
    When the save of an edit succeeds the selection is cleared; when it
    fails the selection is kept; the dialog is closed in both cases. *)
Theorem X11_dialog_mode_decides_request
  (base : string) (env : Env) (u : UI) (b : Batch.t) (formData : BatchFormData.t) :
  let put := mkRequest PUT (base ++ "/api/batches/" ++ Batch.id b) jsonHeaders
                       (Some (payload formData)) in
  let post := mkRequest POST (base ++ "/api/batches") jsonHeaders
                        (Some (payload formData)) in
  let edited := session base env u [ClickEdit b; SetFormData formData; Submit] in
  let added := session base env u [ClickAddBatch; SetFormData formData; Submit] in
  let saved :=
    session base env u [ClickEdit b; SetFormData formData; Submit; Turn; Turn] in
  (dialogTitle (dialogProps base (page (ui (session base env u [ClickEdit b]))))
     = "Edit Batch" /\
   requests PUT (trace edited) = [put] /\ requests POST (trace edited) = []) /\
  (dialogTitle (dialogProps base (page (ui (session base env u [ClickAddBatch]))))
     = "Create New Batch" /\
   requests POST (trace added) = [post] /\ requests PUT (trace added) = []) /\
  (failed (net env 0 Unread put) = false ->
     Page.selectedBatch (page (ui saved)) = None /\
     Page.isBatchDialogOpen (page (ui saved)) = false) /\
  (failed (net env 0 Unread put) = true ->
     Page.selectedBatch (page (ui saved)) = Some b /\
     Page.isBatchDialogOpen (page (ui saved)) = false).
Proof.
  cbn. split; [repeat split |]. split; [repeat split |].
  destruct (net env 0 Unread _) as [msg|[|] j]; cbn;
    rewrite ?batches_answered; cbn;
    split; intros H; try discriminate H; now split.
Qed.

Lemma X11_dialog_mode_decides_request_witness :
  let base := "http://localhost:3001" in
  Page.selectedBatch
    (page (ui (session base obliging creating
                       [ClickEdit sampleBatch; SetFormData sampleForm; Submit;
                        Turn; Turn]))) = None /\
  Page.selectedBatch
    (page (ui (session base rejecting creating
                       [ClickEdit sampleBatch; SetFormData sampleForm; Submit;
                        Turn; Turn]))) =
    Some sampleBatch.
Proof.
  intros base.
  destruct (X11_dialog_mode_decides_request base obliging creating sampleBatch
              sampleForm) as (_ & _ & Hok & _).
  destruct (X11_dialog_mode_decides_request base rejecting creating sampleBatch
              sampleForm) as (_ & _ & _ & Hko).
  split; [apply (Hok eq_refl) | apply (Hko eq_refl)].
Defined.

(** X12: when the dialog's [open] changes to closed nothing is fetched;
    when it changes to open the skills are fetched once, the loading flag
    being set until the request has completed and cleared afterwards in
    every case; the dialog's skills become the array received, or the
    empty list when the body is no array, does not parse, or the request
    does not complete (which is logged). *)
Theorem X12_dialog_skills_fetch
  (base : string) (env : Env) (u : UI) (turns : nat) :
  let req := get (base ++ "/api/skills") in
  let o := net env 0 AsSkills req in
  let m0 := exec env (handler base u OpenChanged) (idle u) in
  let m := settle env (S turns) m0 in
  (Page.isBatchDialogOpen (page u) = false -> m0 = idle u /\ m = idle u) /\
  (Page.isBatchDialogOpen (page u) = true ->
     Dialog.isLoading (dialog (ui m0)) = true /\
     trace m0 = [EvRequest req] /\
     trace m = (EvRequest req :: fetchLog "Error fetching skills:" o)%list /\
     pending m = [] /\
     ui m = mkUI (page u)
                 (Dialog.setIsLoading false
                    (Dialog.setSkills (skillsOf o) (dialog u)))).
Proof.
  intros req o m0 m. subst req o m m0. unfold handler, onOpenEffect.
  cbn [BatchDialogProps.open dialogProps].
  split; intros H; rewrite H; cbn -[fetchLog].
  - rewrite settle_quiescent by reflexivity. now split.
  - split; [reflexivity |]. split; [reflexivity |].
    destruct (net env 0 AsSkills _) as [msg|ok [[data|]|msg]]; cbn;
      rewrite settle_quiescent by reflexivity; repeat split.
Qed.

Lemma X12_dialog_skills_fetch_witness :
  let m := settle offline 1
             (exec offline (handler "http://localhost:3001" creating OpenChanged)
                   (idle creating)) in
  Dialog.skills (dialog creating) = [sampleSkill] /\
  Dialog.skills (dialog (ui m)) = [] /\
  Dialog.isLoading (dialog (ui m)) = false.
Proof.
  intros m.
  destruct (X12_dialog_skills_fetch "http://localhost:3001" offline creating 0)
    as (_ & H).
  destruct (H eq_refl) as (_ & _ & _ & _ & Hu). fold m in Hu. rewrite Hu.
  repeat split.
Defined.

(** X13: the Add button is disabled only when the handler would do
    nothing anyway: whenever the button is disabled [handleAddStudent] is
    the empty procedure, and whenever both fields hold a character that
    is not white space the button is enabled. *)
Theorem X13_add_button_guard
  (base : string) (props : BatchDialogProps.t) (d : Dialog.t) :
  (addDisabled d = true -> handleAddStudent base props d = Done) /\
  (isBlank (Dialog.newStudentName d) = false ->
   isBlank (Dialog.newStudentAdmissionNumber d) = false ->
   addDisabled d = false).
Proof.
  split.
  - intros H. rewrite <- clickAdd_handleAddStudent. unfold clickAdd. now rewrite H.
  - unfold addDisabled.
    destruct (Dialog.newStudentName d); [discriminate |].
    destruct (Dialog.newStudentAdmissionNumber d); [discriminate | reflexivity].
Qed.

Lemma X13_add_button_guard_witness :
  handleAddStudent "http://localhost:3001"
                   (dialogProps "http://localhost:3001" (page creating))
                   (dialog creating) = Done /\
  addDisabled (dialog (addingStudent "Ann" "A-17" "")) = false.
Proof.
  split.
  - apply X13_add_button_guard. reflexivity.
  - apply (X13_add_button_guard "" (dialogProps "" (page creating))); reflexivity.
Defined.

(** ** Sessions *)

Section Sessions.

Variable P : Event -> Prop.
Variable env : Env.

Lemma exec_Keeps (p : Proc) :
  Emits P p -> forall m, Keeps P m -> Keeps P (exec env p m).
Proof.
  induction 1 as [| f k _ IHk | msg k Hp _ IHk | title ds k Hp _ IHk
                  | prompt k Hp _ IHk | s req k Hp Hk _ | callee k _ IHc _ IHk];
    intros m [Ht Hq]; simpl.
  - now split.
  - apply IHk. now split.
  - apply IHk. split; [| exact Hq]. simpl. apply Forall_app. now split; [| constructor].
  - apply IHk. split; [| exact Hq]. simpl. apply Forall_app. now split; [| constructor].
  - apply IHk. split; [| exact Hq]. simpl. apply Forall_app.
    split; [exact Ht | constructor; [apply Hp | constructor]].
  - split; simpl.
    + apply Forall_app. now split; [| constructor].
    + apply Forall_app. split; [exact Hq | constructor; [exact Hk | constructor]].
  - apply IHk, IHc. now split.
Qed.

Lemma deliver_Keeps (m : Machine) : Keeps P m -> Keeps P (deliver env m).
Proof.
  intros [Ht Hq]. unfold deliver. destruct (pending m) as [|t rest] eqn:E.
  - split; [exact Ht | now rewrite E].
  - inversion Hq as [|? ? Hk Hrest]; subst.
    apply exec_Keeps; [apply Hk | now split].
Qed.

Lemma session_Keeps (base : string) (actions : list Action) :
  (forall u a, In a actions -> Emits P (handler base u a)) ->
  forall u, Keeps P (session base env u actions).
Proof.
  intros H u. unfold session.
  assert (K : Keeps P (idle u)) by (split; constructor).
  revert K. generalize (idle u).
  induction actions as [|a actions IH]; intros m K; simpl; [exact K |].
  apply IH.
  - intros u' a' Ha. apply H. now right.
  - assert (Ha : Emits P (handler base (ui m) a)) by (apply H; now left).
    destruct a; try (apply exec_Keeps; [exact Ha | exact K]).
    now apply deliver_Keeps.
Qed.

End Sessions.

Section Handlers.

Variable base : string.

Lemma under_api (tail : string) :
  beginsWith (base ++ "/api/" ++ tail) (base ++ "/api/").
Proof. exists tail. now rewrite append_assoc. Qed.

(** One step of a derivation of [Emits]. *)
Ltac emits_step solve_event :=
  match goal with
  | |- Emits _ Done => apply Emits_Done
  | |- Emits _ (Update _ _) => apply Emits_Update
  | |- Emits _ (ConsoleError _ _) => apply Emits_ConsoleError; [solve_event |]
  | |- Emits _ (ToastError _ _ _) => apply Emits_ToastError; [solve_event |]
  | |- Emits _ (Confirm _ _) =>
      apply Emits_Confirm; [intros; solve_event | intros [|]]
  | |- Emits _ (AwaitFetch _ _ _) =>
      apply Emits_AwaitFetch; [solve_event | intros [?|[|] [?|?]]]
  | |- Emits _ (Call _ _) => apply Emits_Call
  | |- Emits _ (match ?d with IsArray _ => _ | NotArray => _ end) => destruct d
  | |- Emits _ (if ?b then _ else _) => destruct b
  end.

Ltac unfold_handlers :=
  unfold handler, onMount, submitForm, handleSubmit, addStudent, clickAdd,
    handleAddStudent, pickFaculty, onFacultyChange, onSkillChange,
    handleStudentToggle, handleDayToggle, onOpenEffect, fetchSkillsData,
    handleAddBatch, handleEditBatch, handleViewStudents, handleDeleteBatch,
    dialogProps, handleSaveBatch, fetchBatches, fetchFaculties, fetchSkills,
    fetchAllStudents;
  cbn [BatchDialogProps.onSave BatchDialogProps.onOpenChange
       BatchDialogProps.onStudentAdded BatchDialogProps.open].

Ltac solve_wellFormed :=
  unfold wellFormed, saveRequest, get; cbn [url method headers body];
  try match goal with
      | |- context [saveMethod ?sel] => destruct sel; cbn [saveMethod saveUrl]
      end;
  first
    [ exact I
    | now left
    | now right
    | split;
      [ first [ apply under_api
              | apply (under_api "batches")
              | apply (under_api "students") ]
      | first [ now split | split; [reflexivity | discriminate] ] ] ].

Lemma handlers_wellFormed (u : UI) (a : Action) :
  Emits (wellFormed base) (handler base u a).
Proof.
  destruct a; unfold_handlers; repeat emits_step solve_wellFormed.
Qed.

Ltac solve_readOnly := first [exact I | reflexivity].

Lemma handlers_readOnly (u : UI) (a : Action) :
  isReadAction a = true -> Emits readOnly (handler base u a).
Proof.
  destruct a; intros H; try discriminate H; unfold_handlers;
    repeat emits_step solve_readOnly.
Qed.

End Handlers.

(** X14: in every session, whatever the answers of the backend, each
    request the page sends goes to a path under [/api/] of the base URL;
    a POST or PUT carries the JSON content type and a body, a GET or
    DELETE carries neither. *)
Theorem X14_requests_well_formed
  (base : string) (env : Env) (u : UI) (actions : list Action) (req : Request) :
  In (EvRequest req) (trace (session base env u actions)) ->
  beginsWith (url req) (base ++ "/api/") /\
  match method req with
  | POST | PUT => headers req = jsonHeaders /\ body req <> None
  | GET | DELETE => headers req = [] /\ body req = None
  end.
Proof.
  intros H.
  destruct (@session_Keeps (wellFormed base) env base actions
              (fun u' a _ => handlers_wellFormed base u' a) u) as [Ht _].
  rewrite Forall_forall in Ht. exact (Ht _ H).
Qed.

Lemma X14_requests_well_formed_witness :
  let base := "http://localhost:3001" in
  beginsWith (url (saveRequest base None sampleForm)) (base ++ "/api/") /\
  headers (saveRequest base None sampleForm) = jsonHeaders /\
  body (saveRequest base None sampleForm) <> None.
Proof.
  intros base.
  apply (@X14_requests_well_formed base obliging creating
           [Mount; Turn; Submit; Turn] (saveRequest base None sampleForm)).
  simpl. tauto.
Defined.

(** X15: in every session the only notifications the page shows are
    [Error saving batch] and [Error fetching students]. *)
Theorem X15_only_two_notifications
  (base : string) (env : Env) (u : UI) (actions : list Action)
  (title description : string) :
  In (EvToastError title description) (trace (session base env u actions)) ->
  title = "Error saving batch" \/ title = "Error fetching students".
Proof.
  intros H.
  destruct (@session_Keeps (wellFormed base) env base actions
              (fun u' a _ => handlers_wellFormed base u' a) u) as [Ht _].
  rewrite Forall_forall in Ht. exact (Ht _ H).
Qed.

Lemma X15_only_two_notifications_witness :
  "Error fetching students" = "Error saving batch" \/
  "Error fetching students" = "Error fetching students".
Proof.
  apply (@X15_only_two_notifications "http://localhost:3001" offline creating
           [Mount; Turn; Turn; Turn; Turn]
           "Error fetching students" "An error occurred: Failed to fetch").
  simpl. tauto.
Defined.

(** X16: a session without a submit, an inline student add or a delete
    click sends GET requests only, whatever the backend answers. *)
Theorem X16_read_actions_only_get
  (base : string) (env : Env) (u : UI) (actions : list Action) (req : Request) :
  forallb isReadAction actions = true ->
  In (EvRequest req) (trace (session base env u actions)) ->
  method req = GET.
Proof.
  intros Hread H. rewrite forallb_forall in Hread.
  destruct (@session_Keeps readOnly env base actions
              (fun u' a Ha => handlers_readOnly base u' a (Hread a Ha)) u)
    as [Ht _].
  rewrite Forall_forall in Ht. exact (Ht _ H).
Qed.

Lemma X16_read_actions_only_get_witness :
  method (get "http://localhost:3001/api/batches/B7/students") = GET.
Proof.
  apply (@X16_read_actions_only_get "http://localhost:3001" obliging creating
           [Mount; ClickViewStudents sampleBatch; Turn;
            Search (JsText.ofString "alg")]
           (get "http://localhost:3001/api/batches/B7/students")).
  - reflexivity.
  - simpl. tauto.
Defined.
